(** * GBA-image-tools: vid2h encoder driver, pixel formats, GBA video player

    A shallow embedding of
    - [Image::bitsPerPixelForFormat]          (src/src/imagestructs.cpp),
    - [readArguments] and [main] of vid2h     (src/vid2h.cpp),
    - [main] of the GBA video player          (src/gba/video.cpp),
    together with the properties the specification states about them. *)

From Stdlib Require Import ZArith List Ascii String Bool Lia Sorted.
From Stdlib.Strings Require Import Byte.
Import ListNotations.
Local Open Scope string_scope.
Local Open Scope list_scope.
Local Open Scope Z_scope.

(* ===================================================================== *)
(** ** Pixel formats (src/src/imagestructs.cpp)                           *)
(* ===================================================================== *)

Module ImageStructs.

(** What a C++ function either returns or throws as [std::runtime_error]. *)
Inductive Result (A : Type) : Type :=
| Returns (a : A)
| Throws (what : string).
Arguments Returns {A} a.
Arguments Throws {A} what.

(** [enum class ColorFormat] is declared in imagestructs.h, which is not
    part of the sources at hand.  A value of an enumeration type is a value
    of its underlying integer type, so a format is a [Z] and the seven
    enumerators the switch names are the fields of [Enumerators].  The case
    labels of one switch are pairwise different (the compiler refuses the
    switch otherwise), which [WellFormed] says. *)
Definition ColorFormat := Z.

Record Enumerators := {
  Paletted1 : ColorFormat;
  Paletted2 : ColorFormat;
  Paletted4 : ColorFormat;
  Paletted8 : ColorFormat;
  RGB555 : ColorFormat;
  RGB565 : ColorFormat;
  RGB888 : ColorFormat
}.

Definition tags (e : Enumerators) : list ColorFormat :=
  [Paletted1 e; Paletted2 e; Paletted4 e; Paletted8 e; RGB555 e; RGB565 e; RGB888 e].

Definition WellFormed (e : Enumerators) : Prop := NoDup (tags e).

(** uint32_t bitsPerPixelForFormat(ColorFormat format): the switch takes
    the first (and only) label equal to [format], else [default]. *)
Definition bitsPerPixelForFormat (e : Enumerators) (format : ColorFormat) : Result Z :=
  if format =? Paletted1 e then Returns 1
  else if format =? Paletted2 e then Returns 2
  else if format =? Paletted4 e then Returns 4
  else if format =? Paletted8 e then Returns 8
  else if format =? RGB555 e then Returns 15
  else if format =? RGB565 e then Returns 16
  else if format =? RGB888 e then Returns 24
  else Throws "Bad color format".

(** std::string to_string(ColorFormat format) *)
Definition to_string (e : Enumerators) (format : ColorFormat) : Result string :=
  if format =? Paletted1 e then Returns "paletted 1-bit"
  else if format =? Paletted2 e then Returns "paletted 2-bit"
  else if format =? Paletted4 e then Returns "paletted 4-bit"
  else if format =? Paletted8 e then Returns "paletted 8-bit"
  else if format =? RGB555 e then Returns "RGB555"
  else if format =? RGB565 e then Returns "RGB565"
  else if format =? RGB888 e then Returns "RGB888"
  else Throws "Bad color format".

(** A function returned, whatever the value. *)
Definition returned {A} (r : Result A) : bool :=
  match r with Returns _ => true | Throws _ => false end.

(** The association the specification gives: tag to bit width. *)
Definition widths (e : Enumerators) : list (ColorFormat * Z) :=
  combine (tags e) [1; 2; 4; 8; 15; 16; 24].

(** An enumerator numbering to run the function on: 0 is left to a value
    that is none of the seven formats. *)
Definition sampleEnumerators : Enumerators :=
  {| Paletted1 := 1; Paletted2 := 2; Paletted4 := 3; Paletted8 := 4;
     RGB555 := 5; RGB565 := 6; RGB888 := 7 |}.

End ImageStructs.

(* ===================================================================== *)
(** ** The encoder driver vid2h (src/vid2h.cpp)                           *)
(* ===================================================================== *)

Module Vid2h.

Import ImageStructs.

(** *** What vid2h.cpp takes from headers that are not at hand

    processingoptions.h, colorhelpers.h, imageprocessing.h and
    videoreader.h are not part of the sources.  The types they declare and
    vid2h.cpp only passes around are the fields of [Headers]; nothing is
    assumed about them.  Of [VideoReader::VideoInfo] the code computes with
    one field, [nrOfFrames], at line 324. *)
Record Headers : Type := {
  (* the value types of the options that carry a value, and the values
     the global [options] starts with *)
  BlackWhiteV : Type;    blackWhite0 : BlackWhiteV;
  TruecolorV : Type;     truecolor0 : TruecolorV;
  AddColor0V : Type;     addColor00 : AddColor0V;
  MoveColor0V : Type;    moveColor00 : MoveColor0V;
  ShiftIndicesV : Type;  shiftIndices0 : ShiftIndicesV;
  PruneIndicesV : Type;  pruneIndices0 : PruneIndicesV;
  SpritesV : Type;       sprites0 : SpritesV;
  paletted0 : Z;
  (* options.sprites.value.front() *)
  SpriteV : Type;        front : SpritesV -> SpriteV;
  (* buildColorMapRGB555() *)
  ColorMap : Type;       buildColorMapRGB555 : ColorMap;
  (* VideoReader::VideoInfo and Image::Data *)
  VideoInfo : Type;
  ImageData : Type;
  (* videoInfo.nrOfFrames, the frame count of the stream metadata: an
     integer of at most 64 bits *)
  nrOfFrames : VideoInfo -> Z
}.

(** 32-bit unsigned arithmetic. *)
Definition uint32 (z : Z) : Z := z mod 2 ^ 32.

(** The arithmetic of [std::size_t], 64 bits wide: [images.size()] has this
    type, and the other operand of an operator is converted to it. *)
Definition size_t (z : Z) : Z := z mod 2 ^ 64.

(** bool converted to int, as in [options.blackWhite + options.paletted]. *)
Definition int_of_bool (b : bool) : Z := if b then 1 else 0.

Definition empty (s : string) : bool :=
  match s with EmptyString => true | String _ _ => false end.

(** One raw frame as [VideoReader::readFrame] returns it. *)
Definition Frame := list byte.

Definition frame_empty (f : Frame) : bool :=
  match f with [] => true | _ :: _ => false end.

(** std::string getCommandLine(int argc, const char *argv[]), lines 46 to
    58.  [argv] holds the strings [argv[0]], [argv[1]], ...; reading
    [argv[i]] where the list has no string leaves the language ([None]).
    [rounds] is the number of rounds of the loop still to run, [i] its
    counter. *)
Fixpoint getCommandLine_loop (rounds : nat) (i argc : Z) (argv : list string)
  (result : string) : option string :=
  match rounds with
  | O => Some result
  | S rounds' =>
      match nth_error argv (Z.to_nat i) with
      | None => None
      | Some argument =>
          let result := (result ++ argument)%string in
          let result := if i <? argc - 1 then (result ++ " ")%string else result in
          getCommandLine_loop rounds' (i + 1) argc argv result
      end
  end.

Definition getCommandLine (argc : Z) (argv : list string) : option string :=
  getCommandLine_loop (Z.to_nat (argc - 1)) 1 argc argv EmptyString.

(** The pieces of a line between its spaces. *)
Fixpoint words (line : string) : list string :=
  match line with
  | EmptyString => [EmptyString]
  | String c rest =>
      if Ascii.eqb c " "%char then EmptyString :: words rest
      else
        match words rest with
        | w :: ws => String c w :: ws
        | [] => [String c EmptyString]
        end
  end.

Fixpoint hasSpace (s : string) : bool :=
  match s with
  | EmptyString => false
  | String c rest => Ascii.eqb c " "%char || hasSpace rest
  end.

(** Every string of the list is empty. *)
Definition allEmpty (l : list string) : Prop := Forall (fun s => empty s = true) l.

Section Encoder.

Context {H : Headers}.

(** **** Options *)

(** Modelled from the spec: [ProcessingOptions] (processingoptions.h) is
    missing.  Section 6 of the specification lists its members; the
    code reads [isSet] (also through [operator bool]) and [value].  The
    members that carry no value ([tiles] ... [dryRun]) are their
    [isSet]; they are bound to the command line by the option table, so
    they hold what was given as soon as [opts.parse] has returned:
    [readArguments] never calls their [parse]. *)
Record OptionT (V : Type) : Type := { isSet : bool; value : V }.
Arguments isSet {V} o.
Arguments value {V} o.

Record ProcessingOptions : Type := {
  blackWhite : OptionT (BlackWhiteV H);
  paletted : OptionT Z;
  truecolor : OptionT (TruecolorV H);
  addColor0 : OptionT (AddColor0V H);
  moveColor0 : OptionT (MoveColor0V H);
  shiftIndices : OptionT (ShiftIndicesV H);
  pruneIndices : OptionT (PruneIndicesV H);
  sprites : OptionT (SpritesV H);
  tiles : bool;
  deltaImage : bool;
  delta8 : bool;
  delta16 : bool;
  dxt1 : bool;
  rle : bool;
  lz10 : bool;
  lz11 : bool;
  vram : bool;
  dryRun : bool
}.

Definition unset {V} (v : V) : OptionT V := {| isSet := false; value := v |}.

(** The global [options] before [main] runs. *)
Definition options0 : ProcessingOptions :=
  {| blackWhite := unset (blackWhite0 H); paletted := unset (paletted0 H);
     truecolor := unset (truecolor0 H); addColor0 := unset (addColor00 H);
     moveColor0 := unset (moveColor00 H); shiftIndices := unset (shiftIndices0 H);
     pruneIndices := unset (pruneIndices0 H); sprites := unset (sprites0 H);
     tiles := false; deltaImage := false; delta8 := false; delta16 := false;
     dxt1 := false; rle := false; lz10 := false; lz11 := false;
     vram := false; dryRun := false |}.

(** What the command line holds for an option that carries a value:
    nothing, a value its [parse] stores, or a value its [parse] refuses
    by throwing [std::runtime_error]. *)
Inductive Parsed (V : Type) : Type :=
| NotGiven
| Given (v : V)
| Rejected (what : string).
Arguments NotGiven {V}.
Arguments Given {V} v.
Arguments Rejected {V} what.

Definition selected {V} (p : Parsed V) : bool :=
  match p with NotGiven => false | _ => true end.

(** [cxxopts::ParseResult]: what [opts.parse(argc, argv)] returned. *)
Record ParseResult : Type := {
  r_help : bool;                       (* result.count("h") != 0 *)
  r_outname : option string;
  r_infile : option string;
  r_positional : list string;
  r_blackWhite : Parsed (BlackWhiteV H);
  r_paletted : Parsed Z;
  r_truecolor : Parsed (TruecolorV H);
  r_addColor0 : Parsed (AddColor0V H);
  r_moveColor0 : Parsed (MoveColor0V H);
  r_shiftIndices : Parsed (ShiftIndicesV H);
  r_pruneIndices : Parsed (PruneIndicesV H);
  r_sprites : Parsed (SpritesV H);
  r_tiles : bool;
  r_deltaImage : bool;
  r_delta8 : bool;
  r_delta16 : bool;
  r_dxt1 : bool;
  r_rle : bool;
  r_lz10 : bool;
  r_lz11 : bool;
  r_vram : bool;
  r_dryRun : bool
}.

(** **** The processing pipeline *)

(** [Image::Processing::Type], the enumerators vid2h.cpp names. *)
Inductive StepType : Type :=
| InputBlackWhite | InputPaletted | InputTruecolor
| ReorderColors | AddColor0 | MoveColor0 | ShiftIndices | PruneIndices | PadColorMap
| ConvertSprites | ConvertTiles
| DeltaImage
| CompressDXT1
| ConvertDelta8 | ConvertDelta16
| CompressRLE | CompressLz10 | CompressLz11
| PadImageData.

Definition StepType_eq_dec (a b : StepType) : {a = b} + {a <> b}.
Proof. decide equality. Defined.

Definition StepType_eqb (a b : StepType) : bool :=
  if StepType_eq_dec a b then true else false.

(** The heterogeneous parameters of a step, one constructor for each type
    of value vid2h.cpp puts into a parameter list. *)
Inductive Param : Type :=
| PBlackWhite (v : BlackWhiteV H)
| PColorMap (m : ColorMap H)
| PUInt32 (n : Z)
| PTruecolor (v : TruecolorV H)
| PAddColor0 (v : AddColor0V H)
| PMoveColor0 (v : MoveColor0V H)
| PShiftIndices (v : ShiftIndicesV H)
| PSprite (v : SpriteV H)
| PBool (b : bool).

Record Step : Type := {
  type : StepType;
  parameters : list Param;
  compresses : bool
}.

(** Modelled from the spec: [Image::Processing] (imageprocessing.h) is
    missing.  Section 4.1: the pipeline is the ordered list of its steps
    and [addStep(kind, parameters, compresses=false)] appends one. *)
Definition Processing := list Step.

Definition addStep (t : StepType) (ps : list Param) (c : bool)
  (processing : Processing) : Processing :=
  processing ++ [{| type := t; parameters := ps; compresses := c |}].

(** [if (c) { f }] and [f; g] on the pipeline under construction. *)
Definition when (c : bool) (f : Processing -> Processing)
  (processing : Processing) : Processing :=
  if c then f processing else processing.

Definition andThen (f g : Processing -> Processing)
  (processing : Processing) : Processing :=
  g (f processing).

Local Infix ">>" := andThen (at level 61, left associativity).

(** main, "build processing pipeline", lines 230 to 307. *)
Definition buildPipeline (options : ProcessingOptions) : Processing :=
  ((fun processing =>
      if isSet (blackWhite options) then
        addStep InputBlackWhite [PBlackWhite (value (blackWhite options))] false processing
      else if isSet (paletted options) then
        addStep InputPaletted
          [PColorMap (buildColorMapRGB555 H); PUInt32 (value (paletted options))]
          false processing
      else if isSet (truecolor options) then
        addStep InputTruecolor [PTruecolor (value (truecolor options))] false processing
      else processing)
   >> when (isSet (paletted options))
        (addStep ReorderColors [] false
         >> when (isSet (addColor0 options))
              (addStep AddColor0 [PAddColor0 (value (addColor0 options))] false)
         >> when (isSet (moveColor0 options))
              (addStep MoveColor0 [PMoveColor0 (value (moveColor0 options))] false)
         >> when (isSet (shiftIndices options))
              (addStep ShiftIndices [PShiftIndices (value (shiftIndices options))] false)
         >> (fun processing =>
               if isSet (pruneIndices options) then
                 (addStep PruneIndices [] false
                  >> addStep PadColorMap [PUInt32 (uint32 16)] false) processing
               else
                 addStep PadColorMap
                   [PUInt32 (uint32 (value (paletted options)
                                     + (if isSet (addColor0 options) then 1 else 0)))]
                   false processing))
   >> when (isSet (sprites options))
        (addStep ConvertSprites [PSprite (front H (value (sprites options)))] false)
   >> when (tiles options) (addStep ConvertTiles [] false)
   >> when (deltaImage options) (addStep DeltaImage [] false)
   >> when (dxt1 options) (addStep CompressDXT1 [] true)
   >> when (delta8 options) (addStep ConvertDelta8 [] false)
   >> when (delta16 options) (addStep ConvertDelta16 [] false)
   >> when (rle options) (addStep CompressRLE [PBool (vram options)] true)
   >> when (lz10 options) (addStep CompressLz10 [PBool (vram options)] true)
   >> when (lz11 options) (addStep CompressLz11 [PBool (vram options)] true)
   >> addStep PadImageData [PUInt32 (uint32 4)] false) [].

(** main, line 339: [const uint32_t maxColorMapColors]. *)
Definition maxColorMapColors (options : ProcessingOptions) : Z :=
  if isSet (paletted options) then
    if isSet (pruneIndices options) then uint32 16
    else uint32 (value (paletted options)
                 + (if isSet (addColor0 options) then 1 else 0))
  else uint32 0.

(** **** Assignments to the members of [options] *)

Definition set_blackWhite (x : OptionT (BlackWhiteV H)) (o : ProcessingOptions) : ProcessingOptions :=
  {| blackWhite := x; paletted := paletted o; truecolor := truecolor o;
     addColor0 := addColor0 o; moveColor0 := moveColor0 o;
     shiftIndices := shiftIndices o; pruneIndices := pruneIndices o;
     sprites := sprites o; tiles := tiles o; deltaImage := deltaImage o;
     delta8 := delta8 o; delta16 := delta16 o; dxt1 := dxt1 o; rle := rle o;
     lz10 := lz10 o; lz11 := lz11 o; vram := vram o; dryRun := dryRun o |}.

Definition set_paletted (x : OptionT Z) (o : ProcessingOptions) : ProcessingOptions :=
  {| blackWhite := blackWhite o; paletted := x; truecolor := truecolor o;
     addColor0 := addColor0 o; moveColor0 := moveColor0 o;
     shiftIndices := shiftIndices o; pruneIndices := pruneIndices o;
     sprites := sprites o; tiles := tiles o; deltaImage := deltaImage o;
     delta8 := delta8 o; delta16 := delta16 o; dxt1 := dxt1 o; rle := rle o;
     lz10 := lz10 o; lz11 := lz11 o; vram := vram o; dryRun := dryRun o |}.

Definition set_truecolor (x : OptionT (TruecolorV H)) (o : ProcessingOptions) : ProcessingOptions :=
  {| blackWhite := blackWhite o; paletted := paletted o; truecolor := x;
     addColor0 := addColor0 o; moveColor0 := moveColor0 o;
     shiftIndices := shiftIndices o; pruneIndices := pruneIndices o;
     sprites := sprites o; tiles := tiles o; deltaImage := deltaImage o;
     delta8 := delta8 o; delta16 := delta16 o; dxt1 := dxt1 o; rle := rle o;
     lz10 := lz10 o; lz11 := lz11 o; vram := vram o; dryRun := dryRun o |}.

Definition set_addColor0 (x : OptionT (AddColor0V H)) (o : ProcessingOptions) : ProcessingOptions :=
  {| blackWhite := blackWhite o; paletted := paletted o;
     truecolor := truecolor o; addColor0 := x; moveColor0 := moveColor0 o;
     shiftIndices := shiftIndices o; pruneIndices := pruneIndices o;
     sprites := sprites o; tiles := tiles o; deltaImage := deltaImage o;
     delta8 := delta8 o; delta16 := delta16 o; dxt1 := dxt1 o; rle := rle o;
     lz10 := lz10 o; lz11 := lz11 o; vram := vram o; dryRun := dryRun o |}.

Definition set_moveColor0 (x : OptionT (MoveColor0V H)) (o : ProcessingOptions) : ProcessingOptions :=
  {| blackWhite := blackWhite o; paletted := paletted o;
     truecolor := truecolor o; addColor0 := addColor0 o; moveColor0 := x;
     shiftIndices := shiftIndices o; pruneIndices := pruneIndices o;
     sprites := sprites o; tiles := tiles o; deltaImage := deltaImage o;
     delta8 := delta8 o; delta16 := delta16 o; dxt1 := dxt1 o; rle := rle o;
     lz10 := lz10 o; lz11 := lz11 o; vram := vram o; dryRun := dryRun o |}.

Definition set_shiftIndices (x : OptionT (ShiftIndicesV H)) (o : ProcessingOptions) : ProcessingOptions :=
  {| blackWhite := blackWhite o; paletted := paletted o;
     truecolor := truecolor o; addColor0 := addColor0 o;
     moveColor0 := moveColor0 o; shiftIndices := x;
     pruneIndices := pruneIndices o; sprites := sprites o; tiles := tiles o;
     deltaImage := deltaImage o; delta8 := delta8 o; delta16 := delta16 o;
     dxt1 := dxt1 o; rle := rle o; lz10 := lz10 o; lz11 := lz11 o;
     vram := vram o; dryRun := dryRun o |}.

Definition set_pruneIndices (x : OptionT (PruneIndicesV H)) (o : ProcessingOptions) : ProcessingOptions :=
  {| blackWhite := blackWhite o; paletted := paletted o;
     truecolor := truecolor o; addColor0 := addColor0 o;
     moveColor0 := moveColor0 o; shiftIndices := shiftIndices o;
     pruneIndices := x; sprites := sprites o; tiles := tiles o;
     deltaImage := deltaImage o; delta8 := delta8 o; delta16 := delta16 o;
     dxt1 := dxt1 o; rle := rle o; lz10 := lz10 o; lz11 := lz11 o;
     vram := vram o; dryRun := dryRun o |}.

Definition set_sprites (x : OptionT (SpritesV H)) (o : ProcessingOptions) : ProcessingOptions :=
  {| blackWhite := blackWhite o; paletted := paletted o;
     truecolor := truecolor o; addColor0 := addColor0 o;
     moveColor0 := moveColor0 o; shiftIndices := shiftIndices o;
     pruneIndices := pruneIndices o; sprites := x; tiles := tiles o;
     deltaImage := deltaImage o; delta8 := delta8 o; delta16 := delta16 o;
     dxt1 := dxt1 o; rle := rle o; lz10 := lz10 o; lz11 := lz11 o;
     vram := vram o; dryRun := dryRun o |}.

(** [opts.parse(argc, argv)] stores the flags that were given. *)
Definition bindFlags (result : ParseResult) (o : ProcessingOptions) : ProcessingOptions :=
  {| blackWhite := blackWhite o; paletted := paletted o;
     truecolor := truecolor o; addColor0 := addColor0 o;
     moveColor0 := moveColor0 o; shiftIndices := shiftIndices o;
     pruneIndices := pruneIndices o; sprites := sprites o;
     tiles := r_tiles result; deltaImage := r_deltaImage result;
     delta8 := r_delta8 result; delta16 := r_delta16 result;
     dxt1 := r_dxt1 result; rle := r_rle result; lz10 := r_lz10 result;
     lz11 := r_lz11 result; vram := r_vram result;
     dryRun := r_dryRun result |}.

(** **** The world outside the program *)

(** The collaborators of vid2h.cpp whose code is elsewhere: the file system,
    the video reader, [Processing::processStream], and the output stream.
    - [fs_exists]: [stdfs::exists], what it returns or the
      [stdfs::filesystem_error] (a [std::runtime_error]) it throws when the
      status of the path cannot be read;
    - [video_open]: [videoReader.open] followed by [getInfo], the
      information or the [std::runtime_error] thrown;
    - [video_frames]: what successive calls of [readFrame] return; once the
      list is used up [readFrame] returns the empty frame;
    - [processStream]: applied to the pipeline, the frames it was given
      before (its state) and the frame at hand;
    - [ofstream_opens]: whether [std::ofstream] opens the path. *)
Record World : Type := {
  fs_exists : string -> Result bool;
  video_open : string -> Result (VideoInfo H);
  video_frames : list Frame;
  processStream : Processing -> list Frame -> Frame -> Result (ImageData H);
  ofstream_opens : string -> bool
}.

Inductive Stream : Type := Cout | Cerr.

(** What is printed: a line of fixed text, or one of the lines whose text
    comes from values the model does not look into. *)
Inductive Msg : Type :=
| Line (text : string)
| InputDoesNotExist (file : string)
| Usage
| VideoStreamInfo (info : VideoInfo H)
| ApplyingProcessing (processing : Processing)
| ProgressReport
| InputSize
| CompressedSize
| BitRate.

(** What the program does to the world, in order.  [OfstreamWrite] is
    [std::ofstream::write]: the type has it, [main] never does it. *)
Inductive Event : Type :=
| Out (s : Stream) (m : Msg)
| VideoOpen (file : string)
| ReadFrame
| ProcessStream (frame : Frame)
| OfstreamOpen (path : string) (opened : bool)
| OfstreamWrite (path : string) (bytes : list byte).

(** The globals of vid2h.cpp ([m_conversionMode] is never read) and the
    trace of events so far. *)
Record State : Type := {
  m_inFile : string;
  m_outFile : string;
  options : ProcessingOptions;
  trace : list Event
}.

Definition initial : State :=
  {| m_inFile := EmptyString; m_outFile := EmptyString;
     options := options0; trace := [] |}.

(** **** Statements: state, exceptions, undefined behaviour *)

Inductive Outcome (A : Type) : Type :=
| Value (a : A)
| Exception (what : string)       (* a [std::runtime_error] in flight *)
| Undefined.                      (* the language gives the run no meaning *)
Arguments Value {A} a.
Arguments Exception {A} what.
Arguments Undefined {A}.

Definition M (A : Type) : Type := State -> Outcome A * State.

Definition ret {A} (a : A) : M A := fun st => (Value a, st).

Definition bind {A B} (c : M A) (k : A -> M B) : M B :=
  fun st =>
    match c st with
    | (Value a, st') => k a st'
    | (Exception what, st') => (Exception what, st')
    | (Undefined, st') => (Undefined, st')
    end.

Definition throw {A} (what : string) : M A := fun st => (Exception what, st).

Definition undefined {A} : M A := fun st => (Undefined, st).

(** try { c } catch (const std::runtime_error &e) { handler e.what() } *)
Definition try_catch {A} (c : M A) (handler : string -> M A) : M A :=
  fun st =>
    match c st with
    | (Exception what, st') => handler what st'
    | other => other
    end.

Definition get : M State := fun st => (Value st, st).

Definition emit (e : Event) : M unit :=
  fun st =>
    (Value tt, {| m_inFile := m_inFile st; m_outFile := m_outFile st;
                  options := options st; trace := trace st ++ [e] |}).

Definition out (s : Stream) (m : Msg) : M unit := emit (Out s m).

Definition set_inFile (file : string) : M unit :=
  fun st =>
    (Value tt, {| m_inFile := file; m_outFile := m_outFile st;
                  options := options st; trace := trace st |}).

Definition set_outFile (file : string) : M unit :=
  fun st =>
    (Value tt, {| m_inFile := m_inFile st; m_outFile := file;
                  options := options st; trace := trace st |}).

Definition modify_options (f : ProcessingOptions -> ProcessingOptions) : M unit :=
  fun st =>
    (Value tt, {| m_inFile := m_inFile st; m_outFile := m_outFile st;
                  options := f (options st); trace := trace st |}).

Notation "x <- c ;; k" := (bind c (fun x => k))
  (at level 100, c at next level, right associativity).
Notation "c ;; k" := (bind c (fun _ => k))
  (at level 100, right associativity).

(** **** readArguments *)

(** [Option::parse(result)] of an option that carries a value.  Its code
    is in the missing processingoptions.cpp, so what it does is read off
    the command line as a [Parsed]: it leaves the option as it is when the
    command line does not name it, sets [isSet] and stores the value when
    it does, and throws [std::runtime_error] when it refuses the value. *)
Definition parse {V} (p : Parsed V)
  (store : OptionT V -> ProcessingOptions -> ProcessingOptions) : M unit :=
  match p with
  | NotGiven => ret tt
  | Given v => modify_options (store {| isSet := true; value := v |})
  | Rejected what => throw what
  end.

(** The loop over the positional arguments, lines 112 to 123.  [None] when
    [*pIt++] reads at [positional.cend()]. *)
Fixpoint takePositional (positional : list string) (inFile outFile : string)
  : option (string * string) :=
  match positional with
  | [] => Some (inFile, outFile)
  | p1 :: rest1 =>
      if empty inFile || empty outFile then
        if empty inFile then
          if empty outFile then
            match rest1 with
            | [] => None
            | p2 :: rest2 => takePositional rest2 p1 p2
            end
          else takePositional rest1 p1 outFile
        else takePositional rest1 inFile p1
      else Some (inFile, outFile)
  end.

Definition readPositional (positional : list string) : M unit :=
  st <- get ;;
  match takePositional positional (m_inFile st) (m_outFile st) with
  | Some (inFile, outFile) => set_inFile inFile ;; set_outFile outFile
  | None => undefined
  end.

Definition formatCount (o : ProcessingOptions) : Z :=
  int_of_bool (isSet (blackWhite o)) + int_of_bool (isSet (paletted o))
  + int_of_bool (isSet (truecolor o)).

Section Program.

Variable world : World.

(** bool readArguments(int argc, const char *argv[]), given what
    [opts.parse(argc, argv)] returned. *)
Definition readArguments (result : ParseResult) : M bool :=
  modify_options (bindFlags result) ;;
  if r_help result then ret false
  else
    match r_outname result with
    | Some name => set_outFile name
    | None => ret tt
    end ;;
    found <- match r_infile result with
             | Some file =>
                 set_inFile file ;;
                 match fs_exists world file with
                 | Throws what => throw what
                 | Returns true => ret true
                 | Returns false => out Cout (InputDoesNotExist file) ;; ret false
                 end
             | None => ret true
             end ;;
    if negb found then ret false
    else
      readPositional (r_positional result) ;;
      parse (r_blackWhite result) set_blackWhite ;;
      parse (r_paletted result) set_paletted ;;
      parse (r_truecolor result) set_truecolor ;;
      st <- get ;;
      if formatCount (options st) =? 0 then
        out Cerr (Line "One format option is needed.") ;; ret false
      else if formatCount (options st) >? 1 then
        out Cerr (Line "Only a single format option is allowed.") ;; ret false
      else if lz10 (options st) && lz11 (options st) then
        out Cerr (Line "Only a single LZ-compression option is allowed.") ;; ret false
      else
        parse (r_addColor0 result) set_addColor0 ;;
        parse (r_moveColor0 result) set_moveColor0 ;;
        parse (r_shiftIndices result) set_shiftIndices ;;
        parse (r_pruneIndices result) set_pruneIndices ;;
        parse (r_sprites result) set_sprites ;;
        ret true.

Definition printUsage : M unit := out Cout Usage.

(** **** main *)

(** uint32_t newProgress = ((100 * images.size()) / videoInfo.nrOfFrames),
    line 324, for a vector of [size] images: the product and the quotient
    are computed in [size_t]; [None] when the divisor is 0, where the
    language gives the division no meaning. *)
Definition newProgress (videoInfo : VideoInfo H) (size : nat) : option Z :=
  if size_t (nrOfFrames H videoInfo) =? 0 then None
  else Some (uint32 (size_t (100 * Z.of_nat size) / size_t (nrOfFrames H videoInfo))).

(** The loop that reads and processes the frames, lines 315 to 334:
    [pending] is what [readFrame] still has to return, [fed] the frames
    processed so far, [images] the vector of results, [lastProgress] the
    variable of that name.  The line of lines 328 to 332 holds times, its
    text is not modelled. *)
Fixpoint readFrames (processing : Processing) (videoInfo : VideoInfo H)
  (pending fed : list Frame) (images : list (ImageData H)) (lastProgress : Z)
  : M (list (ImageData H)) :=
  emit ReadFrame ;;
  match pending with
  | [] => ret images
  | frame :: rest =>
      if frame_empty frame then ret images
      else
        emit (ProcessStream frame) ;;
        match processStream world processing fed frame with
        | Throws what => throw what
        | Returns image =>
            let images := images ++ [image] in
            match newProgress videoInfo (List.length images) with
            | None => undefined
            | Some progress =>
                (if negb (lastProgress =? progress)
                 then out Cout ProgressReport else ret tt) ;;
                readFrames processing videoInfo rest (fed ++ [frame]) images progress
            end
        end
  end.

(** The inner try block of lines 217 to 229. *)
Definition openVideo (file : string) : M (option (VideoInfo H)) :=
  out Cout (Line ("Opening " ++ file ++ "...")%string) ;;
  emit (VideoOpen file) ;;
  match video_open world file with
  | Returns videoInfo => out Cout (VideoStreamInfo videoInfo) ;; ret (Some videoInfo)
  | Throws what =>
      out Cerr (Line ("Failed to open video file: " ++ what)%string) ;; ret None
  end.

(** Lines 348 to 372: [true] when control reaches line 373. *)
Definition writeOutput (st : State) : M bool :=
  if negb (dryRun (options st)) then
    let path := (m_outFile st ++ ".bin")%string in
    if ofstream_opens world path then
      emit (OfstreamOpen path true) ;;
      out Cout (Line ("Writing output file " ++ path)%string) ;;
      (* try { // TODO  //binFile.write(); } *)
      ret true
    else
      emit (OfstreamOpen path false) ;;
      out Cerr (Line ("Failed to open " ++ path ++ " for writing")%string) ;;
      ret false
  else ret true.

(** int main(int argc, const char *argv[]): the exit code.
    [Magick::InitializeMagick] has no event; the construction of the
    [Magick::Image] of a frame is part of [processStream]; exceptions that
    are no [std::runtime_error] are not modelled (no handler of [main]
    catches them). *)
Definition main (argc : Z) (result : ParseResult) : M Z :=
  try_catch
    (accepted <- (if argc <? 3 then ret false else readArguments result) ;;
     if negb accepted then printUsage ;; ret 2
     else
       st <- get ;;
       if empty (m_inFile st) then
         out Cerr (Line "No input file passed. Aborting.") ;; ret 1
       else if empty (m_outFile st) then
         out Cerr (Line "No output file passed. Aborting.") ;; ret 1
       else
         opened <- openVideo (m_inFile st) ;;
         match opened with
         | None => ret 1
         | Some videoInfo =>
             let processing := buildPipeline (options st) in
             out Cout (ApplyingProcessing processing) ;;
             images <- readFrames processing videoInfo (video_frames world) [] [] 0 ;;
             match images with
             | [] => undefined                      (* images.front() *)
             | _ :: _ =>
                 out Cout InputSize ;;
                 out Cout CompressedSize ;;
                 out Cout BitRate ;;
                 reached <- writeOutput st ;;
                 if reached then out Cout (Line "Done") ;; ret 0
                 else ret 1
             end
         end)
    (fun what => out Cerr (Line ("Error: " ++ what)%string) ;; ret 1).

(** A run of the program: the exit code and what it did. *)
Definition run (argc : Z) (result : ParseResult) : Outcome Z * list Event :=
  let (code, st) := main argc result initial in (code, trace st).

End Program.

(** **** Words of the specification *)

(** What [parse] leaves in an option that held [old]. *)
Definition stored {V} (p : Parsed V) (old : OptionT V) : OptionT V :=
  match p with
  | Given v => {| isSet := true; value := v |}
  | _ => old
  end.

Definition rejected {V} (p : Parsed V) : bool :=
  match p with Rejected _ => true | _ => false end.

(** The options once every member has taken what the command line gives. *)
Definition resolved (result : ParseResult) : ProcessingOptions :=
  {| blackWhite := stored (r_blackWhite result) (blackWhite options0);
     paletted := stored (r_paletted result) (paletted options0);
     truecolor := stored (r_truecolor result) (truecolor options0);
     addColor0 := stored (r_addColor0 result) (addColor0 options0);
     moveColor0 := stored (r_moveColor0 result) (moveColor0 options0);
     shiftIndices := stored (r_shiftIndices result) (shiftIndices options0);
     pruneIndices := stored (r_pruneIndices result) (pruneIndices options0);
     sprites := stored (r_sprites result) (sprites options0);
     tiles := r_tiles result; deltaImage := r_deltaImage result;
     delta8 := r_delta8 result; delta16 := r_delta16 result;
     dxt1 := r_dxt1 result; rle := r_rle result; lz10 := r_lz10 result;
     lz11 := r_lz11 result; vram := r_vram result; dryRun := r_dryRun result |}.

(** [parse] refuses none of the values on the command line. *)
Definition noneRejected (result : ParseResult) : bool :=
  negb (rejected (r_blackWhite result)) && negb (rejected (r_paletted result))
  && negb (rejected (r_truecolor result)) && negb (rejected (r_addColor0 result))
  && negb (rejected (r_moveColor0 result)) && negb (rejected (r_shiftIndices result))
  && negb (rejected (r_pruneIndices result)) && negb (rejected (r_sprites result)).

(** [parse] refuses none of the three format values. *)
Definition formatsParse (result : ParseResult) : bool :=
  negb (rejected (r_blackWhite result)) && negb (rejected (r_paletted result))
  && negb (rejected (r_truecolor result)).

(** The named input file exists, or none is named. *)
Definition inputFound (world : World) (result : ParseResult) : bool :=
  match r_infile result with
  | Some file =>
      match fs_exists world file with
      | Returns found => found
      | Throws _ => false
      end
  | None => true
  end.

(** How many of the three format options the command line names. *)
Definition formatsSelected (result : ParseResult) : Z :=
  int_of_bool (selected (r_blackWhite result))
  + int_of_bool (selected (r_paletted result))
  + int_of_bool (selected (r_truecolor result)).

(** How many of rle, lz10, lz11 the command line names. *)
Definition entropySelected (result : ParseResult) : Z :=
  int_of_bool (r_rle result) + int_of_bool (r_lz10 result)
  + int_of_bool (r_lz11 result).

(** The file names before the positional arguments are looked at. *)
Definition namedFiles (result : ParseResult) : string * string :=
  (match r_infile result with Some file => file | None => EmptyString end,
   match r_outname result with Some name => name | None => EmptyString end).

(** The file names [readArguments] ends with, unless the loop over the
    positional arguments reads past their end. *)
Definition files (result : ParseResult) : option (string * string) :=
  takePositional (r_positional result) (fst (namedFiles result)) (snd (namedFiles result)).

(** [readArguments] returned [true] and left [st]. *)
Definition accepts (world : World) (result : ParseResult) (st : State) : Prop :=
  readArguments world result initial = (Value true, st).

(** The canonical execution order of section 4.2. *)
Definition canonicalOrder : list StepType :=
  [ InputBlackWhite; InputPaletted; InputTruecolor;
    ReorderColors; AddColor0; MoveColor0; ShiftIndices; PruneIndices; PadColorMap;
    ConvertSprites; ConvertTiles;
    DeltaImage;
    CompressDXT1;
    ConvertDelta8; ConvertDelta16;
    CompressRLE; CompressLz10; CompressLz11;
    PadImageData ].

(** The place of a step type in [canonicalOrder] (the three input
    conversions are alternatives and share the first place). *)
Definition position (t : StepType) : nat :=
  match t with
  | InputBlackWhite | InputPaletted | InputTruecolor => 0
  | ReorderColors => 1 | AddColor0 => 2 | MoveColor0 => 3 | ShiftIndices => 4
  | PruneIndices => 5 | PadColorMap => 6
  | ConvertSprites => 7 | ConvertTiles => 8
  | DeltaImage => 9
  | CompressDXT1 => 10
  | ConvertDelta8 => 11 | ConvertDelta16 => 12
  | CompressRLE => 13 | CompressLz10 => 14 | CompressLz11 => 15
  | PadImageData => 16
  end%nat.

(** The stages the specification names: input, conversion, reshape, delta,
    block-compress, byte-delta, entropy-compress, pad. *)
Inductive Stage : Type :=
| StInput | StConversion | StReshape | StDelta | StBlockCompress
| StByteDelta | StEntropyCompress | StPad.

Definition stage (t : StepType) : Stage :=
  match t with
  | InputBlackWhite | InputPaletted | InputTruecolor => StInput
  | ReorderColors | AddColor0 | MoveColor0 | ShiftIndices
  | PruneIndices | PadColorMap => StConversion
  | ConvertSprites | ConvertTiles => StReshape
  | DeltaImage => StDelta
  | CompressDXT1 => StBlockCompress
  | ConvertDelta8 | ConvertDelta16 => StByteDelta
  | CompressRLE | CompressLz10 | CompressLz11 => StEntropyCompress
  | PadImageData => StPad
  end.

Definition stageNumber (s : Stage) : nat :=
  match s with
  | StInput => 0 | StConversion => 1 | StReshape => 2 | StDelta => 3
  | StBlockCompress => 4 | StByteDelta => 5 | StEntropyCompress => 6 | StPad => 7
  end%nat.

Definition before (a b : StepType) : Prop := (position a < position b)%nat.

Definition notAfter (a b : StepType) : Prop :=
  (stageNumber (stage a) <= stageNumber (stage b))%nat.

Definition types (processing : Processing) : list StepType := map type processing.

Definition isInput (s : Step) : bool :=
  match type s with
  | InputBlackWhite | InputPaletted | InputTruecolor => true
  | _ => false
  end.

Definition isType (t : StepType) (s : Step) : bool := StepType_eqb (type s) t.

Definition isLz (s : Step) : bool :=
  match type s with CompressLz10 | CompressLz11 => true | _ => false end.

Definition isEntropy (s : Step) : bool :=
  match type s with
  | CompressRLE | CompressLz10 | CompressLz11 => true
  | _ => false
  end.

Definition count (f : Step -> bool) (processing : Processing) : nat :=
  List.length (filter f processing).

(** The step a conditional [addStep] adds: one step or none. *)
Definition optional (c : bool) (t : StepType) (ps : list Param) (b : bool)
  : Processing :=
  if c then [{| type := t; parameters := ps; compresses := b |}] else [].

(** The steps lines 232 to 244 add. *)
Definition inputSteps (o : ProcessingOptions) : Processing :=
  if isSet (blackWhite o) then
    [{| type := InputBlackWhite; parameters := [PBlackWhite (value (blackWhite o))];
        compresses := false |}]
  else if isSet (paletted o) then
    [{| type := InputPaletted;
        parameters := [PColorMap (buildColorMapRGB555 H); PUInt32 (value (paletted o))];
        compresses := false |}]
  else if isSet (truecolor o) then
    [{| type := InputTruecolor; parameters := [PTruecolor (value (truecolor o))];
        compresses := false |}]
  else [].

(** The steps lines 246 to 270 add. *)
Definition paletteSteps (o : ProcessingOptions) : Processing :=
  if isSet (paletted o) then
    [{| type := ReorderColors; parameters := []; compresses := false |}]
    ++ optional (isSet (addColor0 o)) AddColor0 [PAddColor0 (value (addColor0 o))] false
    ++ optional (isSet (moveColor0 o)) MoveColor0 [PMoveColor0 (value (moveColor0 o))] false
    ++ optional (isSet (shiftIndices o)) ShiftIndices
         [PShiftIndices (value (shiftIndices o))] false
    ++ (if isSet (pruneIndices o) then
          [{| type := PruneIndices; parameters := []; compresses := false |};
           {| type := PadColorMap; parameters := [PUInt32 16]; compresses := false |}]
        else
          [{| type := PadColorMap;
              parameters :=
                [PUInt32 (uint32 (value (paletted o)
                                  + (if isSet (addColor0 o) then 1 else 0)))];
              compresses := false |}])
  else [].

(** A builder that only appends to the pipeline it is given. *)
Definition Appends (f : Processing -> Processing) : Prop :=
  forall processing, f processing = processing ++ f [].

(** The step types of [l] stand in canonical order, at places from [lo]
    up to but not including [hi]. *)
Definition within (lo hi : nat) (l : list StepType) : Prop :=
  StronglySorted before l /\ Forall (fun t => (lo <= position t < hi)%nat) l.

Definition nat_of_bool (b : bool) : nat := if b then 1 else 0.

(** The four kinds of compression step. *)
Definition isCompression (s : Step) : bool :=
  match type s with
  | CompressDXT1 | CompressRLE | CompressLz10 | CompressLz11 => true
  | _ => false
  end.

(** Something was printed, on either stream. *)
Definition printsSomething (events : list Event) : Prop :=
  exists s m, In (Out s m) events.

(** Whether the options ask for a step of type [t]. *)
Definition chosen (o : ProcessingOptions) (t : StepType) : bool :=
  match t with
  | InputBlackWhite => isSet (blackWhite o)
  | InputPaletted => negb (isSet (blackWhite o)) && isSet (paletted o)
  | InputTruecolor =>
      negb (isSet (blackWhite o)) && negb (isSet (paletted o)) && isSet (truecolor o)
  | ReorderColors => isSet (paletted o)
  | AddColor0 => isSet (paletted o) && isSet (addColor0 o)
  | MoveColor0 => isSet (paletted o) && isSet (moveColor0 o)
  | ShiftIndices => isSet (paletted o) && isSet (shiftIndices o)
  | PruneIndices => isSet (paletted o) && isSet (pruneIndices o)
  | PadColorMap => isSet (paletted o)
  | ConvertSprites => isSet (sprites o)
  | ConvertTiles => tiles o
  | DeltaImage => deltaImage o
  | CompressDXT1 => dxt1 o
  | ConvertDelta8 => delta8 o
  | ConvertDelta16 => delta16 o
  | CompressRLE => rle o
  | CompressLz10 => lz10 o
  | CompressLz11 => lz11 o
  | PadImageData => true
  end.

(** The palette steps of section 4.2. *)
Definition isPaletteStep (s : Step) : bool :=
  match stage (type s) with StConversion => true | _ => false end.

(** The message of the first frame of [pending] that [processStream]
    throws on, given that [fed] were processed before. *)
Fixpoint firstFailure (world : World) (processing : Processing)
  (pending fed : list Frame) : option string :=
  match pending with
  | [] => None
  | frame :: rest =>
      match processStream world processing fed frame with
      | Returns _ => firstFailure world processing rest (fed ++ [frame])
      | Throws what => Some what
      end
  end.

(** The events that touch the file system. *)
Definition isFileEvent (e : Event) : bool :=
  match e with
  | OfstreamOpen _ _ | OfstreamWrite _ _ => true
  | _ => false
  end.

Definition isWrite (e : Event) : bool :=
  match e with OfstreamWrite _ _ => true | _ => false end.

Definition isProcessStream (e : Event) : bool :=
  match e with ProcessStream _ => true | _ => false end.

Definition onCerr (e : Event) : bool :=
  match e with Out Cerr _ => true | _ => false end.

Definition isOut (e : Event) : bool :=
  match e with Out _ _ => true | _ => false end.

(** The events up to the loop over the frames, for a video that opened. *)
Definition opening (st : State) (videoInfo : VideoInfo H) : list Event :=
  [ Out Cout (Line ("Opening " ++ m_inFile st ++ "...")%string);
    VideoOpen (m_inFile st);
    Out Cout (VideoStreamInfo videoInfo);
    Out Cout (ApplyingProcessing (buildPipeline (options st))) ].

(** The events of a run that only print. *)
Definition onlyPrints (events : list Event) : Prop :=
  Forall (fun e => isOut e = true) events.

(** How a run ends for each exit code. *)
Definition endsAsCoded (code : Z) (events : list Event) : Prop :=
  (code = 0 /\ exists before, events = before ++ [Out Cout (Line "Done")]) \/
  (code = 1 /\ exists before m, events = before ++ [Out Cerr m]) \/
  (code = 2 /\ exists before, events = before ++ [Out Cout Usage]).

(** The state after more events. *)
Definition withEvents (st : State) (events : list Event) : State :=
  {| m_inFile := m_inFile st; m_outFile := m_outFile st;
     options := options st; trace := trace st ++ events |}.

Definition noFileEvent (events : list Event) : Prop :=
  Forall (fun e => isFileEvent e = false) events.

(** What lines 348 to 373 add to a run that reached them. *)
Definition ending (world : World) (st : State) : Outcome Z * list Event :=
  if dryRun (options st) then (Value 0, [Out Cout (Line "Done")])
  else
    let path := (m_outFile st ++ ".bin")%string in
    if ofstream_opens world path then
      (Value 0, [OfstreamOpen path true;
                 Out Cout (Line ("Writing output file " ++ path)%string);
                 Out Cout (Line "Done")])
    else
      (Value 1, [OfstreamOpen path false;
                 Out Cerr (Line ("Failed to open " ++ path ++ " for writing")%string)]).

(** At most one event on the file system: an opening, in a run that is not dry. *)
Definition opensAtMostOnce (dry : bool) (fileEvents : list Event) : Prop :=
  fileEvents = [] \/
  (dry = false /\ exists path opened, fileEvents = [OfstreamOpen path opened]).

(** The frames [readFrame] returns before the first empty one. *)
Fixpoint framesRead (pending : list Frame) : list Frame :=
  match pending with
  | [] => []
  | frame :: rest => if frame_empty frame then [] else frame :: framesRead rest
  end.

(** [processStream] returns for each of [pending], given that [fed] were
    processed before. *)
Fixpoint allProcessed (world : World) (processing : Processing)
  (pending fed : list Frame) : bool :=
  match pending with
  | [] => true
  | frame :: rest =>
      match processStream world processing fed frame with
      | Returns _ => allProcessed world processing rest (fed ++ [frame])
      | Throws _ => false
      end
  end.





End Encoder.

Arguments isSet {V} o.
Arguments value {V} o.
Arguments NotGiven {V}.
Arguments Given {V} v.
Arguments Rejected {V} what.
Arguments Value {A} a.
Arguments Exception {A} what.
Arguments Undefined {A}.

(** *** A world and command lines to run the program on *)

Definition sampleHeaders : Headers :=
  {| BlackWhiteV := unit; blackWhite0 := tt;
     TruecolorV := unit; truecolor0 := tt;
     AddColor0V := unit; addColor00 := tt;
     MoveColor0V := unit; moveColor00 := tt;
     ShiftIndicesV := unit; shiftIndices0 := tt;
     PruneIndicesV := unit; pruneIndices0 := tt;
     SpritesV := list Z; sprites0 := [];
     paletted0 := 0;
     SpriteV := Z; front := hd 0;
     ColorMap := unit; buildColorMapRGB555 := tt;
     VideoInfo := unit;
     ImageData := Frame;
     nrOfFrames := fun _ => 2 |}.

(** The file in.avi exists and holds two frames; every file opens. *)
Definition sampleWorld : @World sampleHeaders :=
  Build_World (H := sampleHeaders)
    (fun file => Returns (String.eqb file "in.avi")) (* fs_exists *)
    (fun _ => Returns tt)                           (* video_open *)
    [[x01; x02; x03]; [x04; x05; x06]]              (* video_frames *)
    (fun _ _ frame => Returns frame)                (* processStream *)
    (fun _ => true).                                (* ofstream_opens *)

(** vid2h FORMAT [--addcolor0] [--prune] [--dxt1] [--rle] [--lz10] [--lz11]
    [--dryrun] infile out *)
Definition commandLine (infile : string)
  (bw : Parsed unit) (pal : Parsed Z) (tc : Parsed unit)
  (ac0 prune : Parsed unit) (dxt rl l10 l11 dry : bool)
  : @ParseResult sampleHeaders :=
  Build_ParseResult (H := sampleHeaders)
    false (Some "out") (Some infile) []     (* help, outname, infile, positional *)
    bw pal tc                               (* blackWhite, paletted, truecolor *)
    ac0 NotGiven NotGiven prune NotGiven    (* addColor0 ... sprites *)
    false false false false                 (* tiles, deltaImage, delta8, delta16 *)
    dxt rl l10 l11                          (* dxt1, rle, lz10, lz11 *)
    false dry.                              (* vram, dryRun *)

(** vid2h --truecolor in.avi out *)
Definition truecolorOnly : @ParseResult sampleHeaders :=
  commandLine "in.avi" NotGiven NotGiven (Given tt) NotGiven NotGiven
    false false false false false.


(** vid2h --truecolor --rle --lz10 in.avi out *)
Definition truecolorRleLz10 : @ParseResult sampleHeaders :=
  commandLine "in.avi" NotGiven NotGiven (Given tt) NotGiven NotGiven
    false true true false false.

(** vid2h --truecolor --lz10 --lz11 in.avi out *)
Definition truecolorLz10Lz11 : @ParseResult sampleHeaders :=
  commandLine "in.avi" NotGiven NotGiven (Given tt) NotGiven NotGiven
    false false true true false.

(** vid2h --truecolor --dxt1 --lz10 in.avi out *)
Definition truecolorDxt1Lz10 : @ParseResult sampleHeaders :=
  commandLine "in.avi" NotGiven NotGiven (Given tt) NotGiven NotGiven
    true false true false false.

(** vid2h --paletted=16 --addcolor0 --prune in.avi out *)
Definition palettedPruned : @ParseResult sampleHeaders :=
  commandLine "in.avi" NotGiven (Given 16) NotGiven (Given tt) (Given tt)
    false false false false false.

(** vid2h --lz10 in.avi out *)
Definition noFormat : @ParseResult sampleHeaders :=
  commandLine "in.avi" NotGiven NotGiven NotGiven NotGiven NotGiven
    false false true false false.

(** vid2h --truecolor missing.avi out *)
Definition missingInput : @ParseResult sampleHeaders :=
  commandLine "missing.avi" NotGiven NotGiven (Given tt) NotGiven NotGiven
    false false false false false.

(** vid2h --truecolor --rle --lz10: no file name at all. *)
Definition noFileNames : @ParseResult sampleHeaders :=
  Build_ParseResult (H := sampleHeaders)
    false None None []                      (* help, outname, infile, positional *)
    NotGiven NotGiven (Given tt)            (* blackWhite, paletted, truecolor *)
    NotGiven NotGiven NotGiven NotGiven NotGiven
    false false false false
    false true true false                   (* dxt1, rle, lz10, lz11 *)
    false false.

(** vid2h --lz10 --positional=a: one positional argument, no file name and
    no format option. *)
Definition lz10Positional : @ParseResult sampleHeaders :=
  Build_ParseResult (H := sampleHeaders)
    false None None ["a"]                   (* help, outname, infile, positional *)
    NotGiven NotGiven NotGiven              (* blackWhite, paletted, truecolor *)
    NotGiven NotGiven NotGiven NotGiven NotGiven
    false false false false
    false false true false                  (* dxt1, rle, lz10, lz11 *)
    false false.

(** vid2h --truecolor locked/in.avi out *)
Definition lockedInput : @ParseResult sampleHeaders :=
  commandLine "locked/in.avi" NotGiven NotGiven (Given tt) NotGiven NotGiven
    false false false false false.

(** As [sampleWorld], with a directory locked/ that cannot be searched:
    [stdfs::exists] throws for the paths in it. *)
Definition lockedDirectory : @World sampleHeaders :=
  Build_World (H := sampleHeaders)
    (fun file =>
       if String.prefix "locked/" file
       then Throws "filesystem error: cannot get file status: Permission denied"
       else Returns (String.eqb file "in.avi"))
    (fun _ => Returns tt)
    [[x01; x02; x03]; [x04; x05; x06]]
    (fun _ _ frame => Returns frame)
    (fun _ => true).

(** Worlds that differ from [sampleWorld] in the video or the disk. *)
Definition worldWith (open : string -> Result unit) (frames : list Frame)
  (process : @Processing sampleHeaders -> list Frame -> Frame -> Result Frame)
  (opens : string -> bool) : @World sampleHeaders :=
  Build_World (H := sampleHeaders)
    (fun file => Returns (String.eqb file "in.avi")) open frames process opens.

(** in.avi is no video. *)
Definition brokenVideo : @World sampleHeaders :=
  worldWith (fun _ => Throws "no video stream") []
    (fun _ _ frame => Returns frame) (fun _ => true).

(** in.avi holds no frame. *)
Definition emptyVideo : @World sampleHeaders :=
  worldWith (fun _ => Returns tt) [] (fun _ _ frame => Returns frame) (fun _ => true).


(** No file can be opened for writing. *)
Definition readOnlyDisk : @World sampleHeaders :=
  worldWith (fun _ => Returns tt) [[x01; x02; x03]; [x04; x05; x06]]
    (fun _ _ frame => Returns frame) (fun _ => false).

(** The state [readArguments] leaves for one of the command lines above
    that names in.avi. *)
Definition acceptedState (result : @ParseResult sampleHeaders) : @State sampleHeaders :=
  Build_State (H := sampleHeaders) "in.avi" "out" (resolved result) [].

(** Headers as [sampleHeaders], where the video information is the frame
    count itself. *)
Definition countHeaders : Headers :=
  {| BlackWhiteV := unit; blackWhite0 := tt;
     TruecolorV := unit; truecolor0 := tt;
     AddColor0V := unit; addColor00 := tt;
     MoveColor0V := unit; moveColor00 := tt;
     ShiftIndicesV := unit; shiftIndices0 := tt;
     PruneIndicesV := unit; pruneIndices0 := tt;
     SpritesV := list Z; sprites0 := [];
     paletted0 := 0;
     SpriteV := Z; front := hd 0;
     ColorMap := unit; buildColorMapRGB555 := tt;
     VideoInfo := Z;
     ImageData := Frame;
     nrOfFrames := fun count => count |}.

(** in.avi holds two frames and its metadata give the frame count 0. *)
Definition uncountedVideo : @World countHeaders :=
  Build_World (H := countHeaders)
    (fun file => Returns (String.eqb file "in.avi"))
    (fun _ => Returns 0)
    [[x01; x02; x03]; [x04; x05; x06]]
    (fun _ _ frame => Returns frame)
    (fun _ => true).

(** vid2h --truecolor in.avi out and vid2h --truecolor --dryrun in.avi out,
    for [uncountedVideo]. *)
Definition truecolorUncounted (dry : bool) : @ParseResult countHeaders :=
  Build_ParseResult (H := countHeaders)
    false (Some "out") (Some "in.avi") []   (* help, outname, infile, positional *)
    NotGiven NotGiven (Given tt)            (* blackWhite, paletted, truecolor *)
    NotGiven NotGiven NotGiven NotGiven NotGiven
    false false false false
    false false false false                 (* dxt1, rle, lz10, lz11 *)
    false dry.

End Vid2h.

(* ===================================================================== *)
(** ** The player on the device (src/gba/video.cpp)                       *)
(* ===================================================================== *)

Module Gba.

(** [Video::Info], the members [main] reads (videoreader.h of the player is
    not part of the sources). *)
Record VideoInfo : Type := {
  nrOfFrames : Z;
  fps : Z;
  width : Z;
  height : Z;
  bitsPerPixel : Z;
  colorMapEntries : Z;
  bitsInColorMap : Z;
  maxMemoryNeeded : Z
}.

(** What video.cpp takes from headers that are not at hand: the video
    data linked into the program, [Video::Frame] and its value
    initialisation, [Video::GetInfo], [Video::GetNextFrame], and the mask
    [KEY_A] of libgba. *)
Record Headers : Type := {
  VideoData : Type;       VIDEO_DATA : VideoData;
  Frame : Type;           frame0 : Frame;
  GetInfo : VideoData -> VideoInfo;
  GetNextFrame : VideoInfo -> Frame -> Frame;
  KEY_A : Z
}.

(** EWRAM_DATA ALIGN(4) uint32_t ScratchPad[19208 * 2 / 4] *)
Definition ScratchPad_elements : Z := 19208 * 2 / 4.

Definition sizeof_uint32 : Z := 4.

Definition sizeof_ScratchPad : Z := ScratchPad_elements * sizeof_uint32.

(** A write to a 16-bit register keeps the low 16 bits. *)
Definition uint16 (z : Z) : Z := z mod 2 ^ 16.

Section Player.

Context {H : Headers}.

(** The calls and register writes of [main], in order. *)
Inductive Event : Type :=
| SetWaitStates
| IrqInit
| TuiSetup
| TuiFillBackground
| TuiPrintf (x y : Z) (format : string) (args : list Z)
| ScanKeys
| SetDisplayMode
| IrqSetTimer3
| IrqEnableTimer3
| StartTimer3
| SetTimer3Reload (value : Z)
| ResetTimer2
| StartTimer2
| NextFrame (previous : Frame H)
| Decode (scratchPadSize : Z) (info : VideoInfo) (frame : Frame H)
| StopTimer2
| DebugPrintf (frame : Frame H).

(** Lines 38 to 45: the header is read and shown. *)
Definition showInfo (videoInfo : VideoInfo) : list Event :=
  [ TuiPrintf 0 0 "Frames: %d, Fps: %d" [nrOfFrames videoInfo; fps videoInfo];
    TuiPrintf 0 1 "Size: %dx%d" [width videoInfo; height videoInfo];
    TuiPrintf 0 2 "Bits / pixel: %d" [bitsPerPixel videoInfo];
    TuiPrintf 0 3 "Colors in colormap: %d" [colorMapEntries videoInfo];
    TuiPrintf 0 4 "Bits / color: %d" [bitsInColorMap videoInfo];
    TuiPrintf 0 5 "Memory needed: %d" [maxMemoryNeeded videoInfo] ].

(** Lines 47 to 54: the loop polls the keys until A is down.  [polls] are
    the values [keysDown()] returns; the result is the number of polls the
    loop made, or [None] when A was down in none of them. *)
Fixpoint waitForA (polls : list Z) : option nat :=
  match polls with
  | [] => None
  | keys :: rest =>
      if Z.land keys (KEY_A H) =? 0 then option_map S (waitForA rest)
      else Some 1%nat
  end.

(** Lines 69 to 85: [n] rounds of the loop that never ends. *)
Fixpoint play (n : nat) (videoInfo : VideoInfo) (frame : Frame H) : list Event :=
  match n with
  | O => []
  | S n' =>
      let next := GetNextFrame H videoInfo frame in
      [ ResetTimer2; StartTimer2; NextFrame frame;
        Decode sizeof_ScratchPad videoInfo next; StopTimer2; DebugPrintf next ]
      ++ play n' videoInfo next
  end.

(** How far [main] has come. *)
Inductive Progress : Type :=
| WaitingForA (events : list Event)
| DivisionByZero (events : list Event)       (* 65536 / videoInfo.fps *)
| Playing (events : list Event).

(** int main(): its events when [keysDown()] returns [polls] and the frame
    loop is followed for [n] rounds. *)
Definition main (polls : list Z) (n : nat) : Progress :=
  let videoInfo := GetInfo H (VIDEO_DATA H) in
  let startup :=
    [SetWaitStates; IrqInit; TuiSetup; TuiFillBackground] ++ showInfo videoInfo in
  match waitForA polls with
  | None => WaitingForA (startup ++ repeat ScanKeys (List.length polls))
  | Some polled =>
      let timers :=
        [SetDisplayMode; IrqSetTimer3; IrqEnableTimer3; StartTimer3] in
      if fps videoInfo =? 0 then
        DivisionByZero (startup ++ repeat ScanKeys polled ++ timers)
      else
        Playing (startup ++ repeat ScanKeys polled ++ timers
                 ++ [SetTimer3Reload (uint16 (65536 - Z.quot 65536 (fps videoInfo)))]
                 ++ play n videoInfo (frame0 H))
  end.

(** The frame [GetNextFrame] gives after [k] calls, starting from
    [frame]. *)
Fixpoint frameAfter (k : nat) (videoInfo : VideoInfo) (frame : Frame H) : Frame H :=
  match k with
  | O => frame
  | S k' => GetNextFrame H videoInfo (frameAfter k' videoInfo frame)
  end.

(** A is down in the keys a poll returned. *)
Definition aDown (keys : Z) : bool := negb (Z.land keys (KEY_A H) =? 0).

(** The events of a state of [main]. *)
Definition eventsOf (p : Progress) : list Event :=
  match p with
  | WaitingForA events | DivisionByZero events | Playing events => events
  end.

(** The events that are calls of [Video::decode]. *)
Definition isDecode (e : Event) : bool :=
  match e with Decode _ _ _ => true | _ => false end.

End Player.

Arguments waitForA : clear implicits.
Arguments main : clear implicits.
Arguments aDown : clear implicits.

(** A player to run: frames are counted, the header comes with the data. *)
Definition samplePlayer : Headers :=
  {| VideoData := VideoInfo;
     VIDEO_DATA := {| nrOfFrames := 4; fps := 15; width := 240; height := 160;
                      bitsPerPixel := 15; colorMapEntries := 0;
                      bitsInColorMap := 0; maxMemoryNeeded := 100000 |};
     Frame := Z; frame0 := 0;
     GetInfo := fun data => data;
     GetNextFrame := fun _ frame => frame + 1;
     KEY_A := 1 |}.

End Gba.

(* ===================================================================== *)
(** * Properties                                                          *)
(* ===================================================================== *)

Import ImageStructs.

Lemma sampleEnumerators_wf : WellFormed sampleEnumerators.
Proof.
  unfold WellFormed, tags; cbn.
  repeat (constructor; [cbn; intuition discriminate|]).
  constructor.
Qed.

Example bitsPerPixel_RGB555 :
  bitsPerPixelForFormat sampleEnumerators 5 = Returns 15.
Proof. reflexivity. Qed.

Example bitsPerPixel_unknown :
  bitsPerPixelForFormat sampleEnumerators 0 = Throws "Bad color format".
Proof. reflexivity. Qed.

Lemma NoDup_cons_inv {A} (x : A) l : NoDup (x :: l) -> ~ In x l /\ NoDup l.
Proof. intros H; inversion H; subst; auto. Qed.

(** Decides every label comparison of the switch, closing the branches
    that contradict the distinctness of the labels. *)
Ltac switch_cases :=
  repeat match goal with
    | |- context [?a =? ?b] =>
        destruct (Z.eqb_spec a b); try (exfalso; intuition congruence)
    end.

(** C7. The bit width is a function of the tag alone:
    [bitsPerPixelForFormat] returns 1, 2, 4, 8, 15, 16, 24 for Paletted1,
    Paletted2, Paletted4, Paletted8, RGB555, RGB565, RGB888, and for every
    tag that is none of these seven it throws "Bad color format" and
    returns no value. *)
Theorem bitsPerPixelForFormat_spec (e : Enumerators) (wf : WellFormed e) :
  bitsPerPixelForFormat e (Paletted1 e) = Returns 1 /\
  bitsPerPixelForFormat e (Paletted2 e) = Returns 2 /\
  bitsPerPixelForFormat e (Paletted4 e) = Returns 4 /\
  bitsPerPixelForFormat e (Paletted8 e) = Returns 8 /\
  bitsPerPixelForFormat e (RGB555 e) = Returns 15 /\
  bitsPerPixelForFormat e (RGB565 e) = Returns 16 /\
  bitsPerPixelForFormat e (RGB888 e) = Returns 24 /\
  (forall format, ~ In format (tags e) ->
     bitsPerPixelForFormat e format = Throws "Bad color format") /\
  (forall format bits, bitsPerPixelForFormat e format = Returns bits ->
     In (format, bits) (widths e)).
Proof.
  unfold WellFormed, tags in wf.
  repeat (apply NoDup_cons_inv in wf; destruct wf as [? wf]).
  cbn [In] in *.
  unfold bitsPerPixelForFormat, widths, tags; cbn [combine In].
  repeat split.
  1-7: switch_cases; reflexivity.
  - intros format Hn; switch_cases; reflexivity.
  - intros format bits; switch_cases; intros Hr;
      inversion Hr; subst; intuition congruence.
Qed.

Lemma bitsPerPixelForFormat_spec_witness :
  WellFormed sampleEnumerators /\
  bitsPerPixelForFormat sampleEnumerators 5 = Returns 15.
Proof.
  split.
  - exact sampleEnumerators_wf.
  - exact (proj1 (proj2 (proj2 (proj2 (proj2
      (bitsPerPixelForFormat_spec sampleEnumerators sampleEnumerators_wf)))))).
Defined.


(* ===================================================================== *)
(** ** The pipeline vid2h builds                                          *)
(* ===================================================================== *)

Import Vid2h.

Section PipelineFacts.

Context {H : Headers}.

Local Infix ">>" := andThen (at level 61, left associativity).

Lemma Appends_addStep t (ps : list (@Param H)) c : Appends (addStep t ps c).
Proof. intros p; unfold addStep; reflexivity. Qed.

Lemma Appends_when c (f : @Processing H -> @Processing H) : Appends f -> Appends (when c f).
Proof.
  intros Hf p; unfold when; destruct c.
  - apply Hf.
  - now rewrite app_nil_r.
Qed.

Lemma Appends_andThen (f g : @Processing H -> @Processing H) : Appends f -> Appends g -> Appends (f >> g).
Proof.
  intros Hf Hg p; unfold andThen.
  rewrite (Hg (f p)), (Hf p), (Hg (f [])).
  now rewrite app_assoc.
Qed.

Lemma Appends_if (c : bool) (f g : @Processing H -> @Processing H) :
  Appends f -> Appends g -> Appends (fun processing => if c then f processing else g processing).
Proof. intros Hf Hg p; destruct c; [apply Hf | apply Hg]. Qed.

Lemma andThen_nil (f g : @Processing H -> @Processing H) : Appends g -> (f >> g) [] = f [] ++ g [].
Proof. intros Hg; unfold andThen; apply Hg. Qed.

Lemma when_addStep_nil c t (ps : list (@Param H)) b :
  when c (addStep t ps b) [] = optional c t ps b.
Proof. now destruct c. Qed.

Create HintDb appends.

#[local] Hint Resolve Appends_addStep Appends_when Appends_andThen Appends_if : appends.

(** The pipeline is the concatenation of what each block of [main] adds. *)
Lemma buildPipeline_segments (o : @ProcessingOptions H) :
  buildPipeline o =
    inputSteps o ++ paletteSteps o
    ++ optional (isSet (sprites o)) ConvertSprites
         [PSprite (front H (value (sprites o)))] false
    ++ optional (tiles o) ConvertTiles [] false
    ++ optional (deltaImage o) DeltaImage [] false
    ++ optional (dxt1 o) CompressDXT1 [] true
    ++ optional (delta8 o) ConvertDelta8 [] false
    ++ optional (delta16 o) ConvertDelta16 [] false
    ++ optional (rle o) CompressRLE [PBool (vram o)] true
    ++ optional (lz10 o) CompressLz10 [PBool (vram o)] true
    ++ optional (lz11 o) CompressLz11 [PBool (vram o)] true
    ++ [{| type := PadImageData; parameters := [PUInt32 4]; compresses := false |}].
Proof.
  assert (Hpad : forall (c : bool) n m,
    Appends (fun processing : @Processing H =>
      if c then (addStep PruneIndices (@nil (@Param H)) false >> addStep PadColorMap [PUInt32 n] false) processing
      else addStep PadColorMap [PUInt32 m] false processing)).
  { intros c n m.
    apply (Appends_if c (addStep PruneIndices (@nil (@Param H)) false >> addStep PadColorMap [PUInt32 n] false)
             (addStep PadColorMap [PUInt32 m] false)); auto with appends. }
  unfold buildPipeline.
  repeat (rewrite andThen_nil by auto 10 with appends).
  rewrite !when_addStep_nil.
  rewrite <- !app_assoc.
  replace (when (isSet (paletted o)) _ []) with (paletteSteps o).
  - unfold inputSteps, addStep.
    destruct (isSet (blackWhite o)), (isSet (paletted o)), (isSet (truecolor o));
      reflexivity.
  - unfold paletteSteps.
    destruct (isSet (paletted o)); [| reflexivity].
    unfold when at 1.
    repeat (rewrite andThen_nil by auto with appends).
    rewrite !when_addStep_nil.
    unfold addStep, andThen.
    destruct (isSet (pruneIndices o)); cbn [app]; rewrite <- ?app_assoc; reflexivity.
Qed.

End PipelineFacts.

(* ===================================================================== *)
(** ** readArguments                                                      *)
(* ===================================================================== *)

Section ArgumentFacts.

Context {H : Headers}.

Variable world : @World H.

(** Runs the statement at the head of a hypothesis: decides what it
    branches on and drops the branches that contradict the hypothesis. *)
Ltac run_in Hyp :=
  repeat (cbn in Hyp;
          try discriminate Hyp;
          match type of Hyp with
          | context [match ?x with _ => _ end] =>
              lazymatch x with
              | context [match _ with _ => _ end] => fail
              | _ => destruct x eqn:?
              end
          end;
          try discriminate Hyp).

Lemma accepts_inv (result : ParseResult) (st : State) :
  accepts world result st ->
  r_help result = false /\
  inputFound world result = true /\
  noneRejected result = true /\
  formatCount (resolved result) = 1 /\
  lz10 (resolved result) && lz11 (resolved result) = false /\
  files result = Some (m_inFile st, m_outFile st) /\
  options st = resolved result /\
  trace st = [].
Proof.
  unfold accepts, readArguments, files, namedFiles, readPositional, inputFound.
  destruct result; intros Hrun.
  unfold bind, modify_options, get, set_inFile, set_outFile, out, emit, ret,
    parse, throw, undefined in Hrun.
  cbn in Hrun.
  run_in Hrun.
  all: inversion Hrun; subst; clear Hrun; cbn.
  all: repeat match goal with
         | Hx : fs_exists _ _ = _ |- _ => rewrite Hx; clear Hx
         end.
  all: repeat split; try reflexivity; try assumption.
Qed.

(** Only the loop over the positional arguments can leave the language. *)
Lemma readArguments_undefined (result : ParseResult) (st : State) :
  readArguments world result initial = (Undefined, st) ->
  files result = None /\ trace st = [].
Proof.
  unfold readArguments, files, namedFiles, readPositional.
  destruct result; intros Hrun.
  unfold bind, modify_options, get, set_inFile, set_outFile, out, emit, ret,
    parse, throw, undefined in Hrun.
  cbn in Hrun.
  run_in Hrun.
  all: inversion Hrun; subst; cbn; split; [assumption | reflexivity].
Qed.

(** An exception leaves [readArguments] from [stdfs::exists] or from a
    [parse] that refuses its value, and nothing was printed before. *)
Lemma readArguments_throws (result : ParseResult) (what : string) (st : State) :
  readArguments world result initial = (Exception what, st) ->
  trace st = [] /\
  ((exists file, r_infile result = Some file /\ fs_exists world file = Throws what) \/
   (inputFound world result = true /\
    noneRejected result = false /\
    (formatsParse result = false \/
     (formatsSelected result = 1 /\ r_lz10 result && r_lz11 result = false)))).
Proof.
  unfold readArguments, readPositional, noneRejected, formatsParse, formatsSelected,
    inputFound.
  destruct result; intros Hrun.
  unfold bind, modify_options, get, set_inFile, set_outFile, out, emit, ret,
    parse, throw, undefined in Hrun.
  cbn in Hrun.
  run_in Hrun.
  all: inversion Hrun; subst; cbn; split; [reflexivity|].
  all: first
    [ left; eexists; split; [reflexivity | assumption]
    | right;
      repeat match goal with
        | Hx : fs_exists _ _ = _ |- _ => rewrite Hx; clear Hx
        end;
      split; [reflexivity|];
      split; [reflexivity|];
      first [left; reflexivity | right; split; [reflexivity | assumption]] ].
Qed.

(** The ways [readArguments] returns [false], with what it printed. *)
Lemma readArguments_rejects (result : ParseResult) (st : State) :
  readArguments world result initial = (Value false, st) ->
  (r_help result = true /\ trace st = []) \/
  (exists file, r_infile result = Some file /\ fs_exists world file = Returns false /\
                trace st = [Out Cout (InputDoesNotExist file)]) \/
  (formatsSelected result = 0 /\
   trace st = [Out Cerr (Line "One format option is needed.")]) \/
  (formatsSelected result > 1 /\
   trace st = [Out Cerr (Line "Only a single format option is allowed.")]) \/
  (formatsSelected result = 1 /\ r_lz10 result = true /\ r_lz11 result = true /\
   trace st = [Out Cerr (Line "Only a single LZ-compression option is allowed.")]).
Proof.
  unfold readArguments, readPositional, formatsSelected.
  destruct result; intros Hrun.
  unfold bind, modify_options, get, set_inFile, set_outFile, out, emit, ret,
    parse, throw, undefined in Hrun.
  cbn in Hrun.
  run_in Hrun.
  all: inversion Hrun; subst; cbn.
  all: first
    [ left; split; reflexivity
    | right; left; eexists; split; [reflexivity | split; [assumption | reflexivity]]
    | right; right; left; split; reflexivity
    | right; right; right; left; split; reflexivity
    | right; right; right; right;
      match goal with
      | Hlz : _ && _ = true |- _ =>
          apply andb_true_iff in Hlz; destruct Hlz;
          split; [reflexivity | repeat split; assumption || reflexivity]
      end ].
Qed.



End ArgumentFacts.
(* ===================================================================== *)
(** ** main of vid2h                                                      *)
(* ===================================================================== *)

Section MainFacts.

Context {H : Headers}.

Variable world : @World H.

Lemma withEvents_nil (st : @State H) : withEvents st [] = st.
Proof. destruct st; unfold withEvents; cbn; now rewrite app_nil_r. Qed.

Lemma withEvents_app (st : @State H) a b :
  withEvents (withEvents st a) b = withEvents st (a ++ b).
Proof. unfold withEvents; cbn; now rewrite app_assoc. Qed.

Lemma filter_none {A} (f : A -> bool) l :
  Forall (fun x => f x = false) l -> filter f l = [].
Proof.
  induction 1 as [|x l Hx _ IH]; cbn; [reflexivity|].
  now rewrite Hx.
Qed.

Lemma firstFailure_allProcessed processing pending :
  forall fed,
    firstFailure world processing pending fed = None <->
    allProcessed world processing pending fed = true.
Proof.
  induction pending as [|frame rest IH]; intros fed; cbn; [tauto|].
  destruct (processStream world processing fed frame); [apply IH|].
  split; discriminate.
Qed.

(** The frame loop: it only adds events, none of them on the file system.
    When it returns, every frame read was given to [processStream], in
    order, and each gave one image; when it throws, [processStream] threw
    on a frame; it leaves the language when the frame count is 0 and
    [processStream] returned on the first frame. *)
Lemma readFrames_spec processing videoInfo pending :
  forall fed images lastProgress (st : @State H),
  exists events,
    noFileEvent events /\
    match readFrames world processing videoInfo pending fed images lastProgress st with
    | (Value images', st') =>
        st' = withEvents st events /\
        allProcessed world processing (framesRead pending) fed = true /\
        filter isProcessStream events = map ProcessStream (framesRead pending) /\
        List.length images' = (List.length images + List.length (framesRead pending))%nat /\
        (framesRead pending = [] \/ size_t (nrOfFrames H videoInfo) <> 0)
    | (Exception what, st') =>
        st' = withEvents st events /\
        firstFailure world processing (framesRead pending) fed = Some what
    | (Undefined, st') =>
        st' = withEvents st events /\
        size_t (nrOfFrames H videoInfo) = 0 /\
        exists frame rest image,
          framesRead pending = frame :: rest /\
          processStream world processing fed frame = Returns image
    end.
Proof.
  induction pending as [|frame rest IH]; intros fed images lastProgress st.
  - exists [ReadFrame]; split; [repeat constructor|].
    cbn. repeat split; [now rewrite ?Nat.add_0_r | now left].
  - cbn [readFrames framesRead allProcessed].
    unfold bind at 1. cbn [emit].
    destruct (frame_empty frame) eqn:Hempty.
    + exists [ReadFrame]; split; [repeat constructor|].
      cbn. repeat split; [now rewrite ?Nat.add_0_r | now left].
    + unfold bind at 1. cbn [emit].
      cbn [allProcessed firstFailure].
      destruct (processStream world processing fed frame) as [image|what] eqn:Hp.
      * unfold newProgress.
        destruct (Z.eqb_spec (size_t (nrOfFrames H videoInfo)) 0) as [Hzero|Hcount].
        { exists [ReadFrame; ProcessStream frame].
          split; [repeat constructor|].
          cbn. split; [|split; [exact Hzero|]].
          - unfold withEvents; cbn. now rewrite <- !app_assoc.
          - exists frame, (framesRead rest), image. split; [reflexivity | exact Hp]. }
        unfold bind at 1.
        set (st1 := {| m_inFile := _ |}).
        set (progress := uint32 _).
        destruct (negb (lastProgress =? progress)).
        -- cbn [out emit].
           match goal with
           | |- context [readFrames _ _ _ rest ?f ?i ?l ?s] =>
               destruct (IH f i l s) as [events [Hnf Hrest]];
               destruct (readFrames world processing videoInfo rest f i l s)
                 as [[images'|what|] st']
           end.
           ++ destruct Hrest as (-> & Hall & Hfilter & Hlen & _).
              exists ([ReadFrame; ProcessStream frame; Out Cout ProgressReport] ++ events).
              split; [repeat (constructor; [reflexivity|]); exact Hnf|].
              split; [|split; [|split; [|split]]].
              ** unfold withEvents; cbn. now rewrite <- !app_assoc.
              ** exact Hall.
              ** cbn. now rewrite Hfilter.
              ** rewrite Hlen, length_app; cbn. lia.
              ** now right.
           ++ destruct Hrest as (-> & Hfail).
              exists ([ReadFrame; ProcessStream frame; Out Cout ProgressReport] ++ events).
              split; [repeat (constructor; [reflexivity|]); exact Hnf|].
              split; [|exact Hfail].
              unfold withEvents; cbn. now rewrite <- !app_assoc.
           ++ destruct Hrest as (_ & Hzero & _). contradiction.
        -- cbn [ret].
           match goal with
           | |- context [readFrames _ _ _ rest ?f ?i ?l ?s] =>
               destruct (IH f i l s) as [events [Hnf Hrest]];
               destruct (readFrames world processing videoInfo rest f i l s)
                 as [[images'|what|] st']
           end.
           ++ destruct Hrest as (-> & Hall & Hfilter & Hlen & _).
              exists ([ReadFrame; ProcessStream frame] ++ events).
              split; [repeat (constructor; [reflexivity|]); exact Hnf|].
              split; [|split; [|split; [|split]]].
              ** unfold withEvents; cbn. now rewrite <- !app_assoc.
              ** exact Hall.
              ** cbn. now rewrite Hfilter.
              ** rewrite Hlen, length_app; cbn. lia.
              ** now right.
           ++ destruct Hrest as (-> & Hfail).
              exists ([ReadFrame; ProcessStream frame] ++ events).
              split; [repeat (constructor; [reflexivity|]); exact Hnf|].
              split; [|exact Hfail].
              unfold withEvents; cbn. now rewrite <- !app_assoc.
           ++ destruct Hrest as (_ & Hzero & _). contradiction.
      * exists [ReadFrame; ProcessStream frame].
        split; [repeat constructor|].
        cbn. split; [|reflexivity].
        unfold withEvents; cbn. now rewrite <- !app_assoc.
Qed.


End MainFacts.

Section RunFacts.

Context {H : Headers}.

Variable world : @World H.

Lemma run_few_arguments argc (result : @ParseResult H) :
  argc < 3 -> run world argc result = (Value 2, [Out Cout Usage]).
Proof.
  intros Hargc; unfold run, main, try_catch, bind.
  rewrite (proj2 (Z.ltb_lt argc 3) Hargc). reflexivity.
Qed.

Lemma run_rejected argc result (st : @State H) :
  3 <= argc ->
  readArguments world result initial = (Value false, st) ->
  run world argc result = (Value 2, trace st ++ [Out Cout Usage]).
Proof.
  intros Hargc Hread; unfold run, main, try_catch, bind.
  rewrite (proj2 (Z.ltb_ge argc 3) Hargc), Hread. reflexivity.
Qed.

Lemma run_exception argc result what (st : @State H) :
  3 <= argc ->
  readArguments world result initial = (Exception what, st) ->
  run world argc result =
    (Value 1, trace st ++ [Out Cerr (Line ("Error: " ++ what)%string)]).
Proof.
  intros Hargc Hread; unfold run, main, try_catch, bind.
  rewrite (proj2 (Z.ltb_ge argc 3) Hargc), Hread. reflexivity.
Qed.

Lemma run_undefined argc result (st : @State H) :
  3 <= argc ->
  readArguments world result initial = (Undefined, st) ->
  run world argc result = (Undefined, trace st).
Proof.
  intros Hargc Hread; unfold run, main, try_catch, bind.
  rewrite (proj2 (Z.ltb_ge argc 3) Hargc), Hread. reflexivity.
Qed.


End RunFacts.

Section DryRunFacts.

Context {H : Headers}.

Variable world : @World H.




End DryRunFacts.

Section FileFacts.

Context {H : Headers}.

Variable world : @World H.

Lemma readArguments_prints result (o : Outcome bool) (st : @State H) :
  readArguments world result initial = (o, st) ->
  noFileEvent (trace st).
Proof.
  intros Hread. destruct o as [[|]|what|].
  - destruct (accepts_inv world result st Hread) as (_ & _ & _ & _ & _ & _ & _ & ->).
    constructor.
  - destruct (readArguments_rejects world result st Hread)
      as [[_ ->]|[(file & _ & _ & ->)|[[_ ->]|[[_ ->]|(_ & _ & _ & ->)]]]];
      repeat constructor.
  - destruct (readArguments_throws world result what st Hread) as (-> & _). constructor.
  - destruct (readArguments_undefined world result st Hread) as [_ ->]. constructor.
Qed.

(** The only event on the file system a run can have is one opening of the
    output file, and only when [dryRun] is not set. *)
Lemma run_file_events argc result :
  opensAtMostOnce (r_dryRun result) (filter isFileEvent (snd (run world argc result))).
Proof.
  destruct (Z.ltb_spec argc 3) as [Hargc|Hargc].
  { rewrite run_few_arguments by assumption. left; reflexivity. }
  destruct (readArguments world result initial) as [o st] eqn:Hread.
  pose proof (readArguments_prints result o st Hread) as Hprints.
  destruct o as [[|]|what|].
  2:{ rewrite (run_rejected world argc result st) by assumption.
      left. cbn [snd]. rewrite filter_app, (filter_none _ _ Hprints). reflexivity. }
  2:{ rewrite (run_exception world argc result what st) by assumption.
      left. cbn [snd]. rewrite filter_app, (filter_none _ _ Hprints). reflexivity. }
  2:{ rewrite (run_undefined world argc result st) by assumption.
      left. cbn [snd]. apply filter_none, Hprints. }
  destruct (accepts_inv world result st Hread) as (_ & _ & _ & _ & _ & _ & Hopts & Htrace).
  unfold run, main, try_catch.
  unfold bind at 1. unfold bind at 1.
  rewrite (proj2 (Z.ltb_ge argc 3) Hargc), Hread.
  cbn [negb]. unfold bind at 1. cbn [get].
  destruct (empty (m_inFile st)).
  { left. cbn. rewrite Htrace. reflexivity. }
  destruct (empty (m_outFile st)).
  { left. cbn. rewrite Htrace. reflexivity. }
  unfold bind at 1. unfold openVideo.
  unfold bind at 1. cbn [out emit]. unfold bind at 1. cbn [emit].
  destruct (video_open world (m_inFile st)) as [videoInfo|what].
  2:{ left. cbn. rewrite Htrace. reflexivity. }
  unfold bind at 1. cbn [out emit ret]. cbn [m_inFile m_outFile options trace].
  unfold bind at 1. cbn [out emit ret]. cbn [m_inFile m_outFile options trace].
  unfold bind at 1.
  match goal with
  | |- context [readFrames world ?p ?i ?pend ?f ?im ?l ?s] =>
      destruct (readFrames_spec world p i pend f im l s) as [events [Hnf Hspec]];
      destruct (readFrames world p i pend f im l s) as [[images|what'|] st'] eqn:Hframes
  end.
  - destruct Hspec as (-> & _).
    destruct images as [|image images].
    { left. cbn. rewrite Htrace. cbn. rewrite ?filter_app, ?(filter_none _ _ Hnf).
      reflexivity. }
    unfold bind at 1. cbn [out emit withEvents m_inFile m_outFile options trace].
    unfold bind at 1. cbn [out emit withEvents m_inFile m_outFile options trace].
    unfold bind at 1. cbn [out emit withEvents m_inFile m_outFile options trace].
    unfold bind at 1. unfold writeOutput.
    rewrite Htrace, Hopts. cbn [dryRun resolved].
    destruct (r_dryRun result); cbn [negb].
    + left. cbn. rewrite ?filter_app, ?(filter_none _ _ Hnf). reflexivity.
    + right. split; [reflexivity|].
      destruct (ofstream_opens world (m_outFile st ++ ".bin")%string).
      * exists (m_outFile st ++ ".bin")%string, true.
        cbn. rewrite ?filter_app, ?(filter_none _ _ Hnf). reflexivity.
      * exists (m_outFile st ++ ".bin")%string, false.
        cbn. rewrite ?filter_app, ?(filter_none _ _ Hnf). reflexivity.
  - destruct Hspec as (-> & _).
    left. cbn. rewrite Htrace. cbn. rewrite ?filter_app, ?(filter_none _ _ Hnf).
    reflexivity.
  - destruct Hspec as (-> & _).
    left. cbn. rewrite Htrace. cbn. rewrite ?filter_app, ?(filter_none _ _ Hnf).
    reflexivity.
Qed.

End FileFacts.

Section PipelineOrder.

Context {H : Headers}.

Lemma within_nil lo hi : within lo hi [].
Proof. split; constructor. Qed.

Lemma within_weaken lo lo' hi hi' l :
  (lo' <= lo)%nat -> (hi <= hi')%nat -> within lo hi l -> within lo' hi' l.
Proof.
  intros Hlo Hhi [Hs Hb]; split; [exact Hs|].
  eapply Forall_impl; [|exact Hb]. cbn; intros; lia.
Qed.

Lemma within_app lo mid hi a b :
  (lo <= mid <= hi)%nat ->
  within lo mid a -> within mid hi b -> within lo hi (a ++ b).
Proof.
  intros Hmid [Hsa Hba] [Hsb Hbb]; split.
  - induction Hsa as [|x a Hsa IH Hx]; cbn; [exact Hsb|].
    inversion Hba; subst.
    constructor; [apply IH; assumption|].
    apply Forall_app; split; [exact Hx|].
    eapply Forall_impl; [|exact Hbb]. unfold before; cbn; intros; lia.
  - apply Forall_app; split.
    + eapply Forall_impl; [|exact Hba]. cbn; intros; lia.
    + eapply Forall_impl; [|exact Hbb]. cbn; intros; lia.
Qed.

Lemma within_one lo hi t :
  (lo <= position t < hi)%nat -> within lo hi [t].
Proof.
  intros Ht; split.
  - constructor; constructor.
  - constructor; [exact Ht | constructor].
Qed.

Lemma within_optional c t (ps : list (@Param H)) b :
  within (position t) (S (position t)) (types (optional c t ps b)).
Proof.
  destruct c; cbn; [apply within_one; lia | apply within_nil].
Qed.

(** Decides [within] for a list of given step types. *)
Ltac within_given :=
  split;
  [ repeat (constructor; [|repeat (constructor; [unfold before; cbn; lia|])]);
    repeat constructor
  | repeat (constructor; [cbn; lia|]); constructor ].

Lemma within_inputSteps (o : @ProcessingOptions H) :
  within 0 1 (types (inputSteps o)).
Proof.
  unfold inputSteps.
  destruct (isSet (blackWhite o)), (isSet (paletted o)), (isSet (truecolor o));
    cbn; within_given.
Qed.

Lemma within_paletteSteps (o : @ProcessingOptions H) :
  within 1 7 (types (paletteSteps o)).
Proof.
  unfold paletteSteps, optional.
  destruct (isSet (paletted o)), (isSet (addColor0 o)), (isSet (moveColor0 o)),
    (isSet (shiftIndices o)), (isSet (pruneIndices o));
    cbn; within_given.
Qed.

Lemma types_app (a b : @Processing H) : types (a ++ b) = types a ++ types b.
Proof. apply map_app. Qed.

Lemma within_buildPipeline (o : @ProcessingOptions H) :
  within 0 17 (types (buildPipeline o)).
Proof.
  rewrite buildPipeline_segments, !types_app.
  apply (within_app 0 1 17); [lia | apply within_inputSteps |].
  apply (within_app 1 7 17); [lia | apply within_paletteSteps |].
  apply (within_app 7 8 17); [lia | apply (within_optional _ ConvertSprites) |].
  apply (within_app 8 9 17); [lia | apply (within_optional _ ConvertTiles) |].
  apply (within_app 9 10 17); [lia | apply (within_optional _ DeltaImage) |].
  apply (within_app 10 11 17); [lia | apply (within_optional _ CompressDXT1) |].
  apply (within_app 11 12 17); [lia | apply (within_optional _ ConvertDelta8) |].
  apply (within_app 12 13 17); [lia | apply (within_optional _ ConvertDelta16) |].
  apply (within_app 13 14 17); [lia | apply (within_optional _ CompressRLE) |].
  apply (within_app 14 15 17); [lia | apply (within_optional _ CompressLz10) |].
  apply (within_app 15 16 17); [lia | apply (within_optional _ CompressLz11) |].
  apply within_one; cbn; lia.
Qed.

Lemma StronglySorted_weaken {A} (R S : A -> A -> Prop) l :
  (forall a b, R a b -> S a b) -> StronglySorted R l -> StronglySorted S l.
Proof.
  intros HRS; induction 1 as [|x l Hl IH Hx]; constructor; [exact IH|].
  eapply Forall_impl; [|exact Hx]. intros; now apply HRS.
Qed.

Lemma before_notAfter a b : before a b -> notAfter a b.
Proof.
  unfold before, notAfter; destruct a, b; cbn; lia.
Qed.

Variable world : @World H.

(** C5. For every accepted configuration the steps of the pipeline stand
    in the canonical execution order: their places in [canonicalOrder]
    strictly increase (so the stages input, conversion, reshape, delta,
    block-compress, byte-delta, entropy-compress, pad never go back), the
    first step is an input conversion and the last one is PadImageData. *)
Theorem pipeline_in_canonical_order (result : ParseResult) (st : State) :
  accepts world result st ->
  StronglySorted before (types (buildPipeline (options st))) /\
  StronglySorted notAfter (types (buildPipeline (options st))) /\
  (exists first rest,
     buildPipeline (options st) = first :: rest /\ isInput first = true) /\
  (exists front pad,
     buildPipeline (options st) = front ++ [pad] /\ type pad = PadImageData).
Proof.
  intros Hacc.
  destruct (accepts_inv world result st Hacc) as (_ & _ & _ & Hcount & _ & _ & Hopts & _).
  rewrite <- Hopts in Hcount.
  pose proof (within_buildPipeline (options st)) as [Hsorted _].
  split; [exact Hsorted|].
  split; [exact (StronglySorted_weaken _ _ _ before_notAfter Hsorted)|].
  rewrite buildPipeline_segments.
  split.
  - unfold formatCount in Hcount. unfold inputSteps.
    destruct (isSet (blackWhite (options st))), (isSet (paletted (options st))),
      (isSet (truecolor (options st))); cbn in Hcount; try discriminate Hcount;
      cbn [app]; eexists; eexists; (split; [reflexivity|reflexivity]).
  - rewrite !app_assoc. eexists; eexists; split; reflexivity.
Qed.

End PipelineOrder.

Section PipelineCounts.

Context {H : Headers}.

Lemma count_app f (a b : @Processing H) :
  count f (a ++ b) = (count f a + count f b)%nat.
Proof. unfold count; now rewrite filter_app, length_app. Qed.

Lemma count_optional f c t (ps : list (@Param H)) b :
  count f (optional c t ps b) =
    if c && f {| type := t; parameters := ps; compresses := b |} then 1%nat else 0%nat.
Proof.
  unfold count, optional; destruct c; cbn; [|reflexivity].
  now destruct (f _).
Qed.

(** Counts the steps of a pipeline block by block. *)
Ltac count_blocks :=
  rewrite buildPipeline_segments, !count_app, !count_optional.

(** For a count that no step of the first two blocks adds to. *)
Ltac skip_conversion f o :=
  replace (count f (inputSteps o)) with 0%nat
    by (unfold inputSteps;
        destruct (isSet (blackWhite o)), (isSet (paletted o)), (isSet (truecolor o));
        reflexivity);
  replace (count f (paletteSteps o)) with 0%nat
    by (unfold paletteSteps, optional;
        destruct (isSet (paletted o)), (isSet (addColor0 o)), (isSet (moveColor0 o)),
          (isSet (shiftIndices o)), (isSet (pruneIndices o));
        reflexivity).

Lemma count_isInput (o : @ProcessingOptions H) :
  count isInput (buildPipeline o) =
    nat_of_bool (isSet (blackWhite o) || isSet (paletted o) || isSet (truecolor o)).
Proof.
  count_blocks. cbn [isInput type andb].
  rewrite !andb_false_r. cbn [Nat.add].
  replace (count isInput (paletteSteps o)) with 0%nat
    by (unfold paletteSteps, optional;
        destruct (isSet (paletted o)), (isSet (addColor0 o)), (isSet (moveColor0 o)),
          (isSet (shiftIndices o)), (isSet (pruneIndices o));
        reflexivity).
  unfold inputSteps.
  destruct (isSet (blackWhite o)), (isSet (paletted o)), (isSet (truecolor o));
    reflexivity.
Qed.

Lemma count_entropy (o : @ProcessingOptions H) :
  count (isType CompressRLE) (buildPipeline o) = nat_of_bool (rle o) /\
  count (isType CompressLz10) (buildPipeline o) = nat_of_bool (lz10 o) /\
  count (isType CompressLz11) (buildPipeline o) = nat_of_bool (lz11 o) /\
  count (isType CompressDXT1) (buildPipeline o) = nat_of_bool (dxt1 o) /\
  count isLz (buildPipeline o) = (nat_of_bool (lz10 o) + nat_of_bool (lz11 o))%nat /\
  count isEntropy (buildPipeline o) =
    (nat_of_bool (rle o) + nat_of_bool (lz10 o) + nat_of_bool (lz11 o))%nat.
Proof.
  repeat split; count_blocks.
  1: skip_conversion (@isType H CompressRLE) o.
  2: skip_conversion (@isType H CompressLz10) o.
  3: skip_conversion (@isType H CompressLz11) o.
  4: skip_conversion (@isType H CompressDXT1) o.
  5: skip_conversion (@isLz H) o.
  6: skip_conversion (@isEntropy H) o.
  all: cbn [isType isLz isEntropy StepType_eqb StepType_eq_dec type andb];
    rewrite ?andb_false_r, ?andb_true_r;
    destruct (rle o), (lz10 o), (lz11 o), (dxt1 o); reflexivity.
Qed.

Lemma count_compresses (o : @ProcessingOptions H) :
  count (@compresses H) (buildPipeline o) =
    (nat_of_bool (dxt1 o) + nat_of_bool (rle o) + nat_of_bool (lz10 o)
     + nat_of_bool (lz11 o))%nat.
Proof.
  count_blocks. skip_conversion (@compresses H) o.
  cbn [compresses andb];
    rewrite ?andb_false_r, ?andb_true_r;
    destruct (rle o), (lz10 o), (lz11 o), (dxt1 o); reflexivity.
Qed.

Lemma Forall_optional (P : @Step H -> Prop) c t ps b :
  P {| type := t; parameters := ps; compresses := b |} -> Forall P (optional c t ps b).
Proof. intros HP; destruct c; cbn; [constructor; [exact HP | constructor] | constructor]. Qed.

Lemma compresses_isCompression (o : @ProcessingOptions H) :
  Forall (fun s => compresses s = isCompression s) (buildPipeline o).
Proof.
  rewrite buildPipeline_segments.
  repeat (apply Forall_app; split).
  - unfold inputSteps.
    destruct (isSet (blackWhite o)), (isSet (paletted o)), (isSet (truecolor o));
      repeat constructor.
  - unfold paletteSteps, optional.
    destruct (isSet (paletted o)), (isSet (addColor0 o)), (isSet (moveColor0 o)),
      (isSet (shiftIndices o)), (isSet (pruneIndices o)); repeat constructor.
  - now apply Forall_optional.
  - now apply Forall_optional.
  - now apply Forall_optional.
  - now apply Forall_optional.
  - now apply Forall_optional.
  - now apply Forall_optional.
  - now apply Forall_optional.
  - now apply Forall_optional.
  - now apply Forall_optional.
  - repeat constructor.
Qed.

End PipelineCounts.

Section ConfigurationClaims.

Context {H : Headers}.

Variable world : @World H.

Lemma formatCount_resolved (result : @ParseResult H) :
  formatsParse result = true ->
  formatCount (resolved result) = formatsSelected result.
Proof.
  unfold formatsParse, formatCount, formatsSelected, resolved; cbn.
  destruct (r_blackWhite result), (r_paletted result), (r_truecolor result);
    cbn; intros; congruence.
Qed.

Lemma noneRejected_formatsParse (result : @ParseResult H) :
  noneRejected result = true -> formatsParse result = true.
Proof.
  unfold noneRejected, formatsParse.
  destruct (rejected (r_blackWhite result)), (rejected (r_paletted result)),
    (rejected (r_truecolor result)); cbn; intros; congruence.
Qed.

(** An accepted command line names exactly one format, and not both LZ
    options. *)
Lemma accepts_exclusive result st :
  accepts world result st ->
  formatsSelected result = 1 /\ r_lz10 result && r_lz11 result = false.
Proof.
  intros Hacc.
  destruct (accepts_inv world result st Hacc) as (_ & _ & Hrej & Hcount & Hlz & _).
  rewrite formatCount_resolved in Hcount by now apply noneRejected_formatsParse.
  split; [exact Hcount | exact Hlz].
Qed.

(** A command line that is never accepted ends the process with a
    non-zero exit code after something was printed, as long as the loop
    over the positional arguments stays inside them. *)
Lemma never_accepted_exits argc result :
  (forall st, ~ accepts world result st) ->
  files result <> None ->
  exists code events,
    run world argc result = (Value code, events) /\ code <> 0 /\ printsSomething events.
Proof.
  intros Hnever Hfiles.
  destruct (Z.ltb_spec argc 3) as [Hargc|Hargc].
  { rewrite run_few_arguments by assumption.
    exists 2, [Out Cout Usage]; repeat split; [lia|].
    exists Cout, Usage; now left. }
  destruct (readArguments world result initial) as [o st] eqn:Hread.
  destruct o as [[|]|what|].
  - now destruct (Hnever st).
  - rewrite (run_rejected world argc result st) by assumption.
    eexists; eexists; repeat split; [lia|].
    exists Cout, Usage. apply in_or_app; right; now left.
  - rewrite (run_exception world argc result what st) by assumption.
    eexists; eexists; repeat split; [lia|].
    eexists; eexists. apply in_or_app; right; now left.
  - destruct (readArguments_undefined world result st Hread) as [Hnone _].
    contradiction.
Qed.

(** What the exclusivity checks print when [readArguments] reaches them. *)
Lemma exclusivity_diagnostic argc result :
  3 <= argc ->
  r_help result = false ->
  inputFound world result = true ->
  files result <> None ->
  formatsParse result = true ->
  formatsSelected result <> 1 \/ r_lz10 result && r_lz11 result = true ->
  run world argc result =
    (Value 2,
     [Out Cerr (Line (if formatsSelected result =? 0 then "One format option is needed."
                      else if formatsSelected result >? 1
                           then "Only a single format option is allowed."
                           else "Only a single LZ-compression option is allowed."));
      Out Cout Usage]).
Proof.
  intros Hargc Hhelp Hfound Hfiles Hparse Hbad.
  destruct (readArguments world result initial) as [o st] eqn:Hread.
  destruct o as [[|]|what|].
  - destruct (accepts_exclusive result st Hread) as [Hone Hlz].
    destruct Hbad; congruence.
  - rewrite (run_rejected world argc result st) by assumption.
    destruct (readArguments_rejects world result st Hread)
      as [[Hh _]|[(file & Hfile & Hex & _)|[[Hsel ->]|[[Hsel ->]|(Hsel & Hl10 & Hl11 & ->)]]]].
    + congruence.
    + unfold inputFound in Hfound. rewrite Hfile, Hex in Hfound. discriminate.
    + rewrite Hsel. reflexivity.
    + destruct (formatsSelected result =? 0) eqn:E0; [apply Z.eqb_eq in E0; lia|].
      destruct (formatsSelected result >? 1) eqn:E1; [reflexivity|].
      rewrite Z.gtb_ltb in E1. apply Z.ltb_ge in E1. lia.
    + rewrite Hsel. reflexivity.
  - destruct (readArguments_throws world result what st Hread)
      as (_ & [(file & Hfile & Hex)|(_ & _ & [Hp|[Hone Hlz]])]).
    + unfold inputFound in Hfound. rewrite Hfile, Hex in Hfound. discriminate.
    + congruence.
    + destruct Hbad; congruence.
  - destruct (readArguments_undefined world result st Hread) as [Hnone _].
    contradiction.
Qed.

(** The check of the format options where the loop over the positional
    arguments stays inside them.  A command line that selects none of
    blackWhite, paletted, truecolor, or more than one, is never accepted;
    the process prints and exits with a non-zero code, and when
    [readArguments] reaches its check the exit code is 2 after "One format
    option is needed." or "Only a single format option is allowed." on the
    error stream and the usage text.  For every accepted configuration the
    pipeline holds exactly one input conversion step. *)
Theorem exactly_one_format argc (result : @ParseResult H) :
  (formatsSelected result <> 1 ->
     (forall st, ~ accepts world result st) /\
     (files result <> None ->
        exists code events,
          run world argc result = (Value code, events) /\ code <> 0 /\
          printsSomething events) /\
     (3 <= argc -> r_help result = false -> inputFound world result = true ->
      files result <> None -> formatsParse result = true ->
        run world argc result =
          (Value 2,
           [Out Cerr (Line (if formatsSelected result =? 0
                            then "One format option is needed."
                            else "Only a single format option is allowed."));
            Out Cout Usage]))) /\
  (forall st, accepts world result st ->
     count isInput (buildPipeline (options st)) = 1%nat).
Proof.
  split.
  - intros Hsel.
    assert (Hnever : forall st, ~ accepts world result st).
    { intros st Hacc. destruct (accepts_exclusive result st Hacc). congruence. }
    split; [exact Hnever|]. split.
    + intros Hfiles. now apply never_accepted_exits.
    + intros Hargc Hhelp Hfound Hfiles Hparse.
      rewrite exclusivity_diagnostic by (try assumption; now left).
      destruct (formatsSelected result =? 0) eqn:E0; [reflexivity|].
      destruct (formatsSelected result >? 1) eqn:E1; [reflexivity|].
      apply Z.eqb_neq in E0. rewrite Z.gtb_ltb in E1. apply Z.ltb_ge in E1.
      unfold formatsSelected, int_of_bool in *.
      destruct (selected (r_blackWhite result)), (selected (r_paletted result)),
        (selected (r_truecolor result)); lia.
  - intros st Hacc.
    destruct (accepts_inv world result st Hacc) as (_ & _ & _ & Hcount & _ & _ & Hopts & _).
    rewrite count_isInput, Hopts.
    unfold formatCount, int_of_bool in Hcount.
    destruct (isSet (blackWhite (resolved result))),
      (isSet (paletted (resolved result))), (isSet (truecolor (resolved result)));
      cbn in *; congruence.
Qed.

(** The entropy-compression steps are the last steps of the pipeline
    before PadImageData, in the order rle, lz10, lz11. *)
Lemma entropy_steps_last (o : @ProcessingOptions H) :
  exists front,
    buildPipeline o =
      front
      ++ optional (rle o) CompressRLE [PBool (vram o)] true
      ++ optional (lz10 o) CompressLz10 [PBool (vram o)] true
      ++ optional (lz11 o) CompressLz11 [PBool (vram o)] true
      ++ [{| type := PadImageData; parameters := [PUInt32 4]; compresses := false |}].
Proof.
  exists (inputSteps o ++ paletteSteps o
          ++ optional (isSet (sprites o)) ConvertSprites
               [PSprite (front H (value (sprites o)))] false
          ++ optional (tiles o) ConvertTiles [] false
          ++ optional (deltaImage o) DeltaImage [] false
          ++ optional (dxt1 o) CompressDXT1 [] true
          ++ optional (delta8 o) ConvertDelta8 [] false
          ++ optional (delta16 o) ConvertDelta16 [] false).
  rewrite buildPipeline_segments, <- !app_assoc. reflexivity.
Qed.

(** C2, as the code has it.  lz10 and lz11 exclude each other: a command
    line that selects both is never accepted; when the loop over the
    positional arguments stays inside them the process prints and exits
    with a non-zero code, with "Only a single LZ-compression option is
    allowed." on the error stream when the format options passed their
    check.  rle is not part of the exclusion: for every accepted
    configuration the pipeline holds one CompressRLE step when rle is
    selected, one CompressLz10 step when lz10 is, one CompressLz11 step
    when lz11 is, and no other of them, hence at most one LZ step; with rle
    and an LZ option selected, the CompressRLE step is immediately followed
    by the LZ step, and PadImageData ends the pipeline. *)
Theorem lz_options_exclusive argc (result : @ParseResult H) :
  (r_lz10 result = true -> r_lz11 result = true ->
     (forall st, ~ accepts world result st) /\
     (files result <> None ->
        exists code events,
          run world argc result = (Value code, events) /\ code <> 0 /\
          printsSomething events) /\
     (3 <= argc -> r_help result = false -> inputFound world result = true ->
      files result <> None -> formatsParse result = true ->
      formatsSelected result = 1 ->
        run world argc result =
          (Value 2,
           [Out Cerr (Line "Only a single LZ-compression option is allowed.");
            Out Cout Usage]))) /\
  (forall st, accepts world result st ->
     count (isType CompressRLE) (buildPipeline (options st)) = nat_of_bool (r_rle result) /\
     count (isType CompressLz10) (buildPipeline (options st)) = nat_of_bool (r_lz10 result) /\
     count (isType CompressLz11) (buildPipeline (options st)) = nat_of_bool (r_lz11 result) /\
     (count isLz (buildPipeline (options st)) <= 1)%nat /\
     (r_rle result = true -> r_lz10 result = true ->
        exists front,
          buildPipeline (options st) =
            front
            ++ [ {| type := CompressRLE; parameters := [PBool (vram (options st))];
                    compresses := true |};
                 {| type := CompressLz10; parameters := [PBool (vram (options st))];
                    compresses := true |};
                 {| type := PadImageData; parameters := [PUInt32 4];
                    compresses := false |} ]) /\
     (r_rle result = true -> r_lz11 result = true ->
        exists front,
          buildPipeline (options st) =
            front
            ++ [ {| type := CompressRLE; parameters := [PBool (vram (options st))];
                    compresses := true |};
                 {| type := CompressLz11; parameters := [PBool (vram (options st))];
                    compresses := true |};
                 {| type := PadImageData; parameters := [PUInt32 4];
                    compresses := false |} ])).
Proof.
  split.
  - intros Hl10 Hl11.
    assert (Hnever : forall st, ~ accepts world result st).
    { intros st Hacc. destruct (accepts_exclusive result st Hacc) as [_ Hlz].
      rewrite Hl10, Hl11 in Hlz. discriminate. }
    split; [exact Hnever|]. split.
    + intros Hfiles. now apply never_accepted_exits.
    + intros Hargc Hhelp Hfound Hfiles Hparse Hone.
      rewrite exclusivity_diagnostic
        by (try assumption; right; now rewrite Hl10, Hl11).
      rewrite Hone. reflexivity.
  - intros st Hacc.
    destruct (accepts_inv world result st Hacc) as (_ & _ & _ & _ & Hlz & _ & Hopts & _).
    destruct (count_entropy (options st)) as (Hrle & H10 & H11 & _ & Hcount & _).
    destruct (entropy_steps_last (options st)) as [front Hlast].
    rewrite Hrle, H10, H11, Hcount, Hlast.
    rewrite Hopts in *. cbn [rle lz10 lz11 resolved] in *.
    split; [reflexivity|]. split; [reflexivity|]. split; [reflexivity|].
    split; [|split].
    + destruct (r_lz10 result), (r_lz11 result); cbn in *; try discriminate; lia.
    + intros Hr Hl10. exists front.
      rewrite Hr, Hl10 in *. cbn [andb] in Hlz. rewrite Hlz. reflexivity.
    + intros Hr Hl11. exists front.
      rewrite Hr, Hl11 in *. rewrite andb_true_r in Hlz. rewrite Hlz. reflexivity.
Qed.

(** C4, as the code has it.  For every accepted configuration the steps
    whose compresses flag is true are the CompressDXT1, CompressRLE,
    CompressLz10 and CompressLz11 steps; there is one for each of dxt1, rle,
    lz10, lz11 that is selected, so at most three: one block compression,
    one run-length and one LZ step. *)
Theorem compressing_steps (result : @ParseResult H) (st : State) :
  accepts world result st ->
  Forall (fun s => compresses s = isCompression s) (buildPipeline (options st)) /\
  count (@compresses H) (buildPipeline (options st)) =
    (nat_of_bool (r_dxt1 result) + nat_of_bool (r_rle result)
     + nat_of_bool (r_lz10 result) + nat_of_bool (r_lz11 result))%nat /\
  (count (@compresses H) (buildPipeline (options st)) <= 3)%nat /\
  (count (isType CompressDXT1) (buildPipeline (options st)) <= 1)%nat /\
  (count (isType CompressRLE) (buildPipeline (options st)) <= 1)%nat /\
  (count isLz (buildPipeline (options st)) <= 1)%nat.
Proof.
  intros Hacc.
  destruct (accepts_inv world result st Hacc) as (_ & _ & _ & _ & Hlz & _ & Hopts & _).
  destruct (count_entropy (options st)) as (Hrle & _ & _ & Hdxt & Hcount & _).
  split; [apply compresses_isCompression|].
  rewrite count_compresses, Hrle, Hdxt, Hcount, Hopts.
  cbn [dxt1 rle lz10 lz11 resolved] in *.
  destruct (r_dxt1 result), (r_rle result), (r_lz10 result), (r_lz11 result);
    cbn in *; try discriminate; repeat split; lia.
Qed.

End ConfigurationClaims.

Section OutputClaims.

Context {H : Headers}.

Variable world : @World H.

(** C8. For every accepted paletted configuration with pruneIndices
    enabled the pipeline holds a PruneIndices step immediately followed by
    a PadColorMap step that pads the palette to 16 entries; when
    pruneIndices is not enabled there is no PruneIndices step and the
    PadColorMap step pads to the selected palette size, plus one if
    addColor0 is enabled (in 32-bit unsigned arithmetic, which is the sum
    itself whenever the sum fits).  Either way there is one PadColorMap
    step. *)
Theorem palette_padding (result : @ParseResult H) (st : State) :
  accepts world result st ->
  isSet (paletted (options st)) = true ->
  (isSet (pruneIndices (options st)) = true ->
     exists front back,
       buildPipeline (options st) =
         front
         ++ [ {| type := PruneIndices; parameters := []; compresses := false |};
              {| type := PadColorMap; parameters := [PUInt32 16]; compresses := false |} ]
         ++ back) /\
  (isSet (pruneIndices (options st)) = false ->
     count (isType PruneIndices) (buildPipeline (options st)) = 0%nat /\
     exists front back,
       buildPipeline (options st) =
         front
         ++ [ {| type := PadColorMap;
                 parameters :=
                   [PUInt32 (uint32 (value (paletted (options st))
                                     + (if isSet (addColor0 (options st)) then 1 else 0)))];
                 compresses := false |} ]
         ++ back) /\
  count (isType PadColorMap) (buildPipeline (options st)) = 1%nat /\
  (0 <= value (paletted (options st)) < 2 ^ 32 - 1 ->
     uint32 (value (paletted (options st))
             + (if isSet (addColor0 (options st)) then 1 else 0))
     = value (paletted (options st))
       + (if isSet (addColor0 (options st)) then 1 else 0)).
Proof.
  intros _ Hpal.
  set (o := options st) in *.
  assert (Hsplit : forall (a r b c d e back : @Processing H),
            a ++ (r ++ b ++ c ++ d ++ e) ++ back
            = (a ++ r ++ b ++ c ++ d) ++ e ++ back).
  { intros. now rewrite <- !app_assoc. }
  split; [|split; [|split]].
  - intros Hprune.
    rewrite buildPipeline_segments. unfold paletteSteps.
    rewrite Hpal, Hprune, Hsplit.
    eexists; eexists; reflexivity.
  - intros Hprune. split.
    + rewrite buildPipeline_segments, !count_app, !count_optional.
      unfold inputSteps, paletteSteps, optional. rewrite Hprune.
      cbn [isType StepType_eqb StepType_eq_dec type andb].
      rewrite ?andb_false_r.
      destruct (isSet (blackWhite o)), (isSet (paletted o)), (isSet (truecolor o)),
        (isSet (addColor0 o)), (isSet (moveColor0 o)), (isSet (shiftIndices o));
        reflexivity.
    + rewrite buildPipeline_segments. unfold paletteSteps.
      rewrite Hpal, Hprune, Hsplit.
      eexists; eexists; reflexivity.
  - rewrite buildPipeline_segments, !count_app, !count_optional.
    unfold inputSteps, paletteSteps, optional. rewrite Hpal.
    cbn [isType StepType_eqb StepType_eq_dec type andb].
    rewrite ?andb_false_r.
    destruct (isSet (blackWhite o)), (isSet (truecolor o)),
      (isSet (addColor0 o)), (isSet (moveColor0 o)), (isSet (shiftIndices o)),
      (isSet (pruneIndices o)); reflexivity.
  - intros Hrange. unfold uint32.
    apply Z.mod_small. destruct (isSet (addColor0 o)); lia.
Qed.


(** No run writes to a file: the call of [binFile.write] is commented
    out. *)
Lemma run_never_writes argc (result : @ParseResult H) :
  filter isWrite (snd (run world argc result)) = [].
Proof.
  assert (Hsub : forall l : list (@Event H),
            filter isWrite l = filter isWrite (filter isFileEvent l)).
  { induction l as [|e l IH]; [reflexivity|].
    destruct e; cbn; rewrite ?IH; reflexivity. }
  rewrite Hsub.
  destruct (run_file_events world argc result) as [->|[_ (path & opened & ->)]];
    reflexivity.
Qed.

End OutputClaims.

(** C1. vid2h --truecolor in.avi out, not a dry run: the arguments are
    accepted, both frames are processed, out.bin is opened, and the run
    ends with exit code 0 without one byte written to it: no header, no
    frame-offset table, no frame data. *)
Theorem output_file_left_empty :
  run sampleWorld 4 truecolorOnly =
    (Value 0,
     [ Out Cout (Line "Opening in.avi..."); VideoOpen "in.avi";
       Out Cout (VideoStreamInfo (tt : VideoInfo sampleHeaders));
       Out Cout (ApplyingProcessing (buildPipeline (resolved truecolorOnly)));
       ReadFrame; ProcessStream [x01; x02; x03]; Out Cout ProgressReport;
       ReadFrame; ProcessStream [x04; x05; x06]; Out Cout ProgressReport;
       ReadFrame;
       Out Cout InputSize; Out Cout CompressedSize; Out Cout BitRate;
       OfstreamOpen "out.bin" true;
       Out Cout (Line "Writing output file out.bin");
       Out Cout (Line "Done") ]) /\
  filter isWrite (snd (run sampleWorld 4 truecolorOnly)) = [].
Proof.
  split.
  - vm_compute. reflexivity.
  - apply run_never_writes.
Qed.

(** C9. vid2h --truecolor missing.avi out, where missing.avi does not
    exist: the exit code is 2, the message that the input file does not
    exist and the usage text go to the standard output, and nothing is
    printed to the error stream. *)
Theorem missing_input_reported_on_cout :
  fs_exists sampleWorld "missing.avi" = Returns false /\
  run sampleWorld 4 missingInput =
    (Value 2, [Out Cout (InputDoesNotExist "missing.avi"); Out Cout Usage]) /\
  filter onCerr (snd (run sampleWorld 4 missingInput)) = [].
Proof.
  repeat split; vm_compute; reflexivity.
Qed.

(* ===================================================================== *)
(** ** The player                                                         *)
(* ===================================================================== *)

Section PlayerFacts.

Context {H : Gba.Headers}.

Lemma play_decodes n videoInfo (frame : Gba.Frame H) :
  List.length (filter Gba.isDecode (Gba.play n videoInfo frame)) = n.
Proof.
  revert frame; induction n as [|n IH]; intros frame; cbn; [reflexivity|].
  now rewrite IH.
Qed.

Lemma play_first n videoInfo (frame : Gba.Frame H) :
  In (Gba.Decode Gba.sizeof_ScratchPad videoInfo (Gba.GetNextFrame H videoInfo frame))
     (Gba.play (S n) videoInfo frame).
Proof. cbn. right; right; right; left. reflexivity. Qed.

Lemma play_scratch_size n videoInfo (frame : Gba.Frame H) :
  Forall (fun e => match e with
                   | Gba.Decode size _ _ => size = Gba.sizeof_ScratchPad
                   | _ => True
                   end)
         (Gba.play n videoInfo frame).
Proof.
  revert frame; induction n as [|n IH]; intros frame; cbn; [constructor|].
  repeat (constructor; [exact I || reflexivity|]). apply IH.
Qed.

Lemma filter_repeat_ScanKeys n :
  filter Gba.isDecode (repeat (@Gba.ScanKeys H) n) = [].
Proof. induction n; cbn; auto. Qed.

(** C3, as the code has it.  At startup the player reads the header and
    shows maxMemoryNeeded on the screen; it does not compare it with the
    scratch pad it reserves (38416 bytes).  Whatever the value of the
    field, once A was down in one of the polls and fps is not 0, the player
    goes on to the frame loop: after n rounds it has called Video::decode n
    times, each time with the scratch pad's size 38416, the first time on
    the frame after the initial one. *)
Theorem player_never_checks_scratch_memory (polls : list Z) (n : nat) :
  Gba.waitForA H polls <> None ->
  Gba.fps (Gba.GetInfo H (Gba.VIDEO_DATA H)) <> 0 ->
  Gba.sizeof_ScratchPad = 38416 /\
  exists events,
    Gba.main H polls (S n) = Gba.Playing events /\
    In (Gba.TuiPrintf 0 5 "Memory needed: %d"
          [Gba.maxMemoryNeeded (Gba.GetInfo H (Gba.VIDEO_DATA H))]) events /\
    In (Gba.Decode 38416 (Gba.GetInfo H (Gba.VIDEO_DATA H))
          (Gba.GetNextFrame H (Gba.GetInfo H (Gba.VIDEO_DATA H)) (Gba.frame0 H)))
       events /\
    List.length (filter Gba.isDecode events) = S n /\
    Forall (fun e => match e with
                     | Gba.Decode size _ _ => size = 38416
                     | _ => True
                     end) events.
Proof.
  intros Hkey Hfps.
  split; [reflexivity|].
  unfold Gba.main.
  destruct (Gba.waitForA H polls) as [polled|]; [|congruence].
  destruct (Z.eqb_spec (Gba.fps (Gba.GetInfo H (Gba.VIDEO_DATA H))) 0) as [E|_];
    [congruence|].
  eexists; split; [reflexivity|].
  pose proof (play_first n (Gba.GetInfo H (Gba.VIDEO_DATA H)) (Gba.frame0 H)) as Hfirst.
  pose proof (play_decodes (S n) (Gba.GetInfo H (Gba.VIDEO_DATA H)) (Gba.frame0 H)) as Hcount.
  pose proof (play_scratch_size (S n) (Gba.GetInfo H (Gba.VIDEO_DATA H)) (Gba.frame0 H))
    as Hsize.
  change Gba.sizeof_ScratchPad with 38416 in Hfirst, Hsize.
  set (frames := Gba.play (S n) _ _) in *.
  split; [|split; [|split]].
  - apply in_or_app; left. apply in_or_app; right.
    unfold Gba.showInfo. do 5 right. left. reflexivity.
  - do 4 (apply in_or_app; right). exact Hfirst.
  - rewrite !filter_app, !length_app, filter_repeat_ScanKeys, Hcount. reflexivity.
  - apply Forall_app; split; [apply Forall_app; split; repeat constructor|].
    apply Forall_app; split.
    { apply Forall_forall. intros e He. apply repeat_spec in He. now subst. }
    apply Forall_app; split; [repeat constructor|].
    apply Forall_app; split; [repeat constructor|].
    exact Hsize.
Qed.

End PlayerFacts.

(** C3 fails as stated: the header asks for 100000 bytes of scratch
    memory, the player reserves 38416, and after A is pressed the first
    frame is decoded all the same. *)
Lemma decodes_beyond_scratch_pad :
  Gba.maxMemoryNeeded (Gba.GetInfo Gba.samplePlayer (Gba.VIDEO_DATA Gba.samplePlayer))
    > Gba.sizeof_ScratchPad /\
  exists events,
    Gba.main Gba.samplePlayer [1] 1 = Gba.Playing events /\
    filter Gba.isDecode events =
      [Gba.Decode 38416 (Gba.VIDEO_DATA Gba.samplePlayer) (1 : Gba.Frame Gba.samplePlayer)].
Proof.
  split; [reflexivity|].
  eexists; split; [reflexivity|]. reflexivity.
Qed.

Lemma player_never_checks_scratch_memory_witness :
  Gba.sizeof_ScratchPad = 38416 /\
  exists events,
    Gba.main Gba.samplePlayer [0; 1] 2 = Gba.Playing events /\
    In (Gba.TuiPrintf 0 5 "Memory needed: %d" [100000]) events /\
    In (Gba.Decode 38416 (Gba.VIDEO_DATA Gba.samplePlayer)
          (1 : Gba.Frame Gba.samplePlayer)) events /\
    List.length (filter Gba.isDecode events) = 2%nat /\
    Forall (fun e => match e with
                     | Gba.Decode size _ _ => size = 38416
                     | _ => True
                     end) events.
Proof.
  apply (player_never_checks_scratch_memory (H := Gba.samplePlayer) [0; 1] 1).
  - cbn; discriminate.
  - cbn; discriminate.
Defined.

(* ===================================================================== *)
(** ** The claims on the sample command lines                             *)
(* ===================================================================== *)

(** C2 fails as stated: --truecolor --rle --lz10 selects two of rle, lz10,
    lz11, is accepted, runs to exit code 0, and its pipeline holds both a
    CompressRLE and a CompressLz10 step. *)
Lemma rle_with_lz10_accepted :
  entropySelected truecolorRleLz10 = 2 /\
  accepts sampleWorld truecolorRleLz10 (acceptedState truecolorRleLz10) /\
  fst (run sampleWorld 4 truecolorRleLz10) = Value 0 /\
  types (filter isEntropy (buildPipeline (options (acceptedState truecolorRleLz10))))
    = [CompressRLE; CompressLz10].
Proof.
  split; [reflexivity|].
  split; [unfold accepts; vm_compute; reflexivity|].
  split; vm_compute; reflexivity.
Qed.

Lemma lz_options_exclusive_witness :
  run sampleWorld 4 truecolorLz10Lz11 =
    (Value 2,
     [Out Cerr (Line "Only a single LZ-compression option is allowed.");
      Out Cout Usage]) /\
  (count isLz (buildPipeline (options (acceptedState truecolorRleLz10))) <= 1)%nat /\
  exists front,
    buildPipeline (options (acceptedState truecolorRleLz10)) =
      front
      ++ [ {| type := CompressRLE; parameters := [PBool false]; compresses := true |};
           {| type := CompressLz10; parameters := [PBool false]; compresses := true |};
           {| type := PadImageData; parameters := [PUInt32 4]; compresses := false |} ].
Proof.
  split; [|split].
  - destruct (lz_options_exclusive sampleWorld 4 truecolorLz10Lz11) as [Hboth _].
    destruct (Hboth eq_refl eq_refl) as (_ & _ & Hdiagnostic).
    apply Hdiagnostic.
    + lia.
    + reflexivity.
    + reflexivity.
    + vm_compute; discriminate.
    + reflexivity.
    + reflexivity.
  - destruct (lz_options_exclusive sampleWorld 4 truecolorRleLz10) as [_ Haccepted].
    apply (Haccepted (acceptedState truecolorRleLz10)).
    unfold accepts; vm_compute; reflexivity.
  - destruct (lz_options_exclusive sampleWorld 4 truecolorRleLz10) as [_ Haccepted].
    destruct (Haccepted (acceptedState truecolorRleLz10)) as (_ & _ & _ & _ & Horder & _).
    + unfold accepts; vm_compute; reflexivity.
    + apply Horder; reflexivity.
Defined.

(** C4 fails as stated: --truecolor --dxt1 --lz10 is accepted and its
    pipeline holds two steps whose compresses flag is true. *)
Lemma two_compressing_steps :
  accepts sampleWorld truecolorDxt1Lz10 (acceptedState truecolorDxt1Lz10) /\
  types (filter (@compresses sampleHeaders)
           (buildPipeline (options (acceptedState truecolorDxt1Lz10))))
    = [CompressDXT1; CompressLz10] /\
  count (@compresses sampleHeaders)
    (buildPipeline (options (acceptedState truecolorDxt1Lz10))) = 2%nat.
Proof.
  split; [unfold accepts; vm_compute; reflexivity|].
  split; vm_compute; reflexivity.
Qed.

Lemma compressing_steps_witness :
  count (@compresses sampleHeaders)
    (buildPipeline (options (acceptedState truecolorDxt1Lz10))) = 2%nat /\
  (count isLz (buildPipeline (options (acceptedState truecolorDxt1Lz10))) <= 1)%nat.
Proof.
  destruct (compressing_steps sampleWorld truecolorDxt1Lz10
              (acceptedState truecolorDxt1Lz10))
    as (_ & Hcount & _ & _ & _ & Hlz).
  - unfold accepts; vm_compute; reflexivity.
  - split; [exact Hcount | exact Hlz].
Defined.

(** C6. vid2h --lz10 --positional=a selects no format option, and the run
    ends without a diagnostic and without an exit code: the loop over the
    positional arguments takes "a" as the input file and reads the output
    file name past the end of the vector (line 121), before the format
    options are looked at.  Nothing was printed up to there. *)
Theorem format_check_not_reached :
  formatsSelected lz10Positional = 0 /\
  takePositional (r_positional lz10Positional) EmptyString EmptyString = None /\
  run sampleWorld 3 lz10Positional = (Undefined, []).
Proof.
  split; [reflexivity|]. split; [reflexivity|].
  vm_compute. reflexivity.
Qed.

Lemma pipeline_in_canonical_order_witness :
  StronglySorted before
    [InputPaletted; ReorderColors; AddColor0; PruneIndices; PadColorMap; PadImageData].
Proof.
  change [InputPaletted; ReorderColors; AddColor0; PruneIndices; PadColorMap; PadImageData]
    with (types (buildPipeline (options (acceptedState palettedPruned)))).
  refine (proj1 (pipeline_in_canonical_order sampleWorld palettedPruned
                   (acceptedState palettedPruned) _)).
  unfold accepts; vm_compute; reflexivity.
Defined.

Lemma exactly_one_format_witness :
  run sampleWorld 4 noFormat =
    (Value 2, [Out Cerr (Line "One format option is needed."); Out Cout Usage]) /\
  count isInput (buildPipeline (options (acceptedState truecolorOnly))) = 1%nat.
Proof.
  split.
  - destruct (exactly_one_format sampleWorld 4 noFormat) as [Hnone _].
    destruct Hnone as (_ & _ & Hdiagnostic).
    + vm_compute; discriminate.
    + apply Hdiagnostic.
      * lia.
      * reflexivity.
      * reflexivity.
      * vm_compute; discriminate.
      * reflexivity.
  - destruct (exactly_one_format sampleWorld 4 truecolorOnly) as [_ Haccepted].
    apply (Haccepted (acceptedState truecolorOnly)).
    unfold accepts; vm_compute; reflexivity.
Defined.

Lemma palette_padding_witness :
  exists front back,
    buildPipeline (options (acceptedState palettedPruned)) =
      front
      ++ [ {| type := PruneIndices; parameters := []; compresses := false |};
           {| type := PadColorMap; parameters := [PUInt32 16]; compresses := false |} ]
      ++ back.
Proof.
  destruct (palette_padding sampleWorld palettedPruned (acceptedState palettedPruned))
    as (Hpruned & _).
  - unfold accepts; vm_compute; reflexivity.
  - reflexivity.
  - apply Hpruned. reflexivity.
Defined.


(* ===================================================================== *)
(** ** More on the pixel formats                                          *)
(* ===================================================================== *)

(** Decides the label comparisons of a switch, keeping what each says. *)
Ltac switch_on format :=
  repeat match goal with
    | |- context [format =? ?b] => destruct (Z.eqb_spec format b)
    | H : context [format =? ?b] |- _ => destruct (Z.eqb_spec format b)
    end.

(** X1. [to_string] names the seven formats "paletted 1-bit", "paletted
    2-bit", "paletted 4-bit", "paletted 8-bit", "RGB555", "RGB565",
    "RGB888", and throws "Bad color format" for every other tag. *)
Theorem to_string_spec (e : Enumerators) (wf : WellFormed e) :
  to_string e (Paletted1 e) = Returns "paletted 1-bit" /\
  to_string e (Paletted2 e) = Returns "paletted 2-bit" /\
  to_string e (Paletted4 e) = Returns "paletted 4-bit" /\
  to_string e (Paletted8 e) = Returns "paletted 8-bit" /\
  to_string e (RGB555 e) = Returns "RGB555" /\
  to_string e (RGB565 e) = Returns "RGB565" /\
  to_string e (RGB888 e) = Returns "RGB888" /\
  (forall format, ~ In format (tags e) ->
     to_string e format = Throws "Bad color format").
Proof.
  unfold WellFormed, tags in wf.
  repeat (apply NoDup_cons_inv in wf; destruct wf as [? wf]).
  cbn [In] in *.
  unfold to_string, tags; cbn [In].
  repeat split.
  1-7: switch_cases; reflexivity.
  intros format Hn; switch_cases; reflexivity.
Qed.

Lemma to_string_spec_witness :
  WellFormed sampleEnumerators /\
  to_string sampleEnumerators 6 = Returns "RGB565".
Proof.
  split.
  - exact sampleEnumerators_wf.
  - exact (proj1 (proj2 (proj2 (proj2 (proj2 (proj2
      (to_string_spec sampleEnumerators sampleEnumerators_wf))))))).
Defined.

(** X2. [to_string] and [bitsPerPixelForFormat] accept the same formats:
    whatever the numbering of the enumerators, one returns exactly when the
    other does. *)
Theorem to_string_returns_as_bitsPerPixel (e : Enumerators) (format : ColorFormat) :
  returned (to_string e format) = returned (bitsPerPixelForFormat e format).
Proof.
  unfold to_string, bitsPerPixelForFormat.
  switch_on format; reflexivity.
Qed.

(** X3. The name tells the format: two formats [to_string] gives the same
    name are the same format. *)
Theorem to_string_injective (e : Enumerators) (f1 f2 : ColorFormat) (name : string) :
  to_string e f1 = Returns name ->
  to_string e f2 = Returns name ->
  f1 = f2.
Proof.
  unfold to_string; intros H1 H2.
  switch_on f1; switch_on f2;
    try discriminate H1; try discriminate H2;
    try congruence;
    rewrite <- H2 in H1; discriminate H1.
Qed.

Lemma to_string_injective_witness : (5 : ColorFormat) = 5.
Proof.
  apply (to_string_injective sampleEnumerators 5 5 "RGB555"); reflexivity.
Defined.

(** X4. The bit width tells the format, and it is between 1 and 24: two
    formats of the same width are the same format. *)
Theorem bitsPerPixelForFormat_injective (e : Enumerators) (f1 f2 : ColorFormat) (bits : Z) :
  bitsPerPixelForFormat e f1 = Returns bits ->
  bitsPerPixelForFormat e f2 = Returns bits ->
  f1 = f2 /\ 1 <= bits <= 24.
Proof.
  unfold bitsPerPixelForFormat; intros H1 H2.
  switch_on f1; switch_on f2;
    try discriminate H1; try discriminate H2;
    inversion H1; subst bits; inversion H2; split; (congruence || lia).
Qed.

Lemma bitsPerPixelForFormat_injective_witness : (3 : ColorFormat) = 3 /\ 1 <= 4 <= 24.
Proof.
  apply (bitsPerPixelForFormat_injective sampleEnumerators 3 3 4); reflexivity.
Defined.

(* ===================================================================== *)
(** ** getCommandLine                                                     *)
(* ===================================================================== *)

Lemma append_empty_r (s : string) : (s ++ EmptyString)%string = s.
Proof. induction s as [|c s IH]; cbn; [reflexivity | now rewrite IH]. Qed.

Lemma append_assoc (a b c : string) :
  ((a ++ b) ++ c)%string = (a ++ (b ++ c))%string.
Proof. induction a as [|x a IH]; cbn; [reflexivity | now rewrite IH]. Qed.

(** The loop from counter [i]: it appends the next [rounds] arguments,
    with a space between two of them. *)
Lemma getCommandLine_loop_joins (argc : Z) (argv : list string) :
  forall rounds i result,
    1 <= i ->
    argc = i + Z.of_nat rounds ->
    (Z.to_nat i + rounds <= List.length argv)%nat ->
    getCommandLine_loop rounds i argc argv result =
      Some (result ++ String.concat " " (firstn rounds (skipn (Z.to_nat i) argv)))%string.
Proof.
  induction rounds as [|rounds IH]; intros i result Hi Hargc Hlen.
  - cbn. now rewrite append_empty_r.
  - cbn [getCommandLine_loop].
    destruct (nth_error argv (Z.to_nat i)) as [argument|] eqn:Hnth.
    2:{ apply nth_error_None in Hnth. lia. }
    assert (Hskip : skipn (Z.to_nat i) argv = argument :: skipn (S (Z.to_nat i)) argv).
    { clear - Hnth. revert argv Hnth.
      induction (Z.to_nat i) as [|k IHk]; intros [|a argv] Hnth; cbn in *;
        try discriminate.
      - now inversion Hnth.
      - now apply IHk. }
    rewrite Hskip. cbn [firstn].
    rewrite IH by (try lia; rewrite Z2Nat.inj_add by lia; cbn; lia).
    replace (Z.to_nat (i + 1)) with (S (Z.to_nat i))
      by (rewrite Z2Nat.inj_add by lia; cbn; lia).
    destruct rounds as [|rounds].
    + rewrite (proj2 (Z.ltb_ge i (argc - 1))) by lia.
      cbn. now rewrite !append_empty_r.
    + rewrite (proj2 (Z.ltb_lt i (argc - 1))) by lia.
      destruct (skipn (S (Z.to_nat i)) argv) as [|next rest] eqn:Hrest.
      { apply (f_equal (@List.length string)) in Hrest.
        rewrite length_skipn in Hrest. cbn in Hrest. lia. }
      cbn [firstn String.concat].
      now rewrite !append_assoc.
Qed.

Lemma getCommandLine_joined (argc : Z) (argv : list string) :
  argc <= Z.of_nat (List.length argv) ->
  getCommandLine argc argv =
    Some (String.concat " " (firstn (Z.to_nat (argc - 1)) (tl argv))).
Proof.
  intros Hargc. unfold getCommandLine.
  destruct (Z.le_gt_cases argc 1) as [Hfew|Hmany].
  - replace (Z.to_nat (argc - 1)) with 0%nat by lia. reflexivity.
  - rewrite getCommandLine_loop_joins by lia.
    destruct argv; reflexivity.
Qed.

(** X5. When [argv] holds at least [argc] strings, [getCommandLine] returns
    the arguments [argv[1]] ... [argv[argc - 1]] joined by single spaces,
    without a space in front or behind; with [argc] the length of [argv]
    these are all the arguments after the program name. *)
Theorem getCommandLine_joins (argc : Z) (argv : list string) :
  argc <= Z.of_nat (List.length argv) ->
  getCommandLine argc argv =
    Some (String.concat " " (firstn (Z.to_nat (argc - 1)) (tl argv))) /\
  (argc = Z.of_nat (List.length argv) ->
   getCommandLine argc argv = Some (String.concat " " (tl argv))).
Proof.
  intros Hargc.
  split; [now apply getCommandLine_joined|].
  intros Hall. rewrite getCommandLine_joined by exact Hargc.
  rewrite firstn_all2; [reflexivity|].
  destruct argv; cbn in *; lia.
Qed.

Lemma getCommandLine_joins_witness :
  getCommandLine 4 ["vid2h"; "--truecolor"; "in.avi"; "out"]
    = Some "--truecolor in.avi out".
Proof.
  refine (proj2 (getCommandLine_joins 4 ["vid2h"; "--truecolor"; "in.avi"; "out"] _) _).
  - cbn; lia.
  - reflexivity.
Defined.

Lemma getCommandLine_loop_overruns (argc : Z) (argv : list string) :
  forall rounds i result,
    0 <= i ->
    (0 < rounds)%nat ->
    (List.length argv < Z.to_nat i + rounds)%nat ->
    getCommandLine_loop rounds i argc argv result = None.
Proof.
  induction rounds as [|rounds IH]; intros i result Hi Hrounds Hlen; [lia|].
  cbn [getCommandLine_loop].
  destruct (nth_error argv (Z.to_nat i)) as [argument|] eqn:Hnth; [|reflexivity].
  assert (Z.to_nat i < List.length argv)%nat
    by (apply nth_error_Some; congruence).
  apply IH; lia.
Qed.

(** X6. [getCommandLine] reads outside [argv] exactly when [argc] is more
    than 1 and more than the number of strings [argv] holds; with [argc] at
    most 1 it returns the empty string whatever [argv] is. *)
Theorem getCommandLine_defined (argc : Z) (argv : list string) :
  (getCommandLine argc argv = None <->
     1 < argc /\ Z.of_nat (List.length argv) < argc) /\
  (argc <= 1 -> getCommandLine argc argv = Some EmptyString).
Proof.
  split; [split|].
  - intros Hnone.
    destruct (Z.le_gt_cases argc 1) as [Hfew|Hmany].
    { unfold getCommandLine in Hnone.
      replace (Z.to_nat (argc - 1)) with 0%nat in Hnone by lia. discriminate. }
    split; [lia|].
    destruct (Z.le_gt_cases argc (Z.of_nat (List.length argv))) as [Hin|Hout]; [|lia].
    rewrite (getCommandLine_joined argc argv Hin) in Hnone. discriminate.
  - intros [Hmany Hshort]. unfold getCommandLine.
    apply getCommandLine_loop_overruns; lia.
  - intros Hfew. unfold getCommandLine.
    replace (Z.to_nat (argc - 1)) with 0%nat by lia. reflexivity.
Qed.

Lemma words_word (w : string) : hasSpace w = false -> words w = [w].
Proof.
  induction w as [|c w IH]; cbn; [reflexivity|].
  destruct (Ascii.eqb c " "); cbn; [discriminate|].
  intros Hw. now rewrite IH.
Qed.

Lemma words_first (w rest : string) :
  hasSpace w = false ->
  words (w ++ String " " rest) = w :: words rest.
Proof.
  induction w as [|c w IH]; cbn; [reflexivity|].
  destruct (Ascii.eqb c " "); cbn; [discriminate|].
  intros Hw. now rewrite IH.
Qed.

Lemma concat_two (sep a b : string) (l : list string) :
  String.concat sep (a :: b :: l) = (a ++ sep ++ String.concat sep (b :: l))%string.
Proof. reflexivity. Qed.

Lemma words_concat (ws : list string) :
  ws <> [] ->
  Forall (fun w => hasSpace w = false) ws ->
  words (String.concat " " ws) = ws.
Proof.
  induction ws as [|w ws IH]; intros Hne Hws; [congruence|].
  inversion Hws as [|? ? Hw Hrest]; subst.
  destruct ws as [|x ws].
  - cbn. now apply words_word.
  - rewrite concat_two.
    change (" " ++ String.concat " " (x :: ws))%string
      with (String " " (String.concat " " (x :: ws))).
    rewrite words_first by exact Hw.
    rewrite IH; [reflexivity | discriminate | exact Hrest].
Qed.

(** X7. When no argument holds a space, the arguments can be read back
    from the command line: cutting the string [getCommandLine] returns at
    its spaces gives the arguments after the program name, in order. *)
Theorem getCommandLine_words (argc : Z) (argv : list string) :
  argc = Z.of_nat (List.length argv) ->
  2 <= argc ->
  Forall (fun argument => hasSpace argument = false) (tl argv) ->
  exists line, getCommandLine argc argv = Some line /\ words line = tl argv.
Proof.
  intros Hargc Htwo Hwords.
  rewrite getCommandLine_joined by lia.
  rewrite firstn_all2 by (destruct argv; cbn in *; lia).
  eexists; split; [reflexivity|].
  apply words_concat; [|exact Hwords].
  destruct argv as [|program [|argument rest]]; cbn in *; try lia; discriminate.
Qed.

Lemma getCommandLine_words_witness :
  exists line,
    getCommandLine 4 ["vid2h"; "--truecolor"; "in.avi"; "out"] = Some line /\
    words line = ["--truecolor"; "in.avi"; "out"].
Proof.
  apply (getCommandLine_words 4 ["vid2h"; "--truecolor"; "in.avi"; "out"]).
  - reflexivity.
  - lia.
  - repeat constructor.
Defined.

(* ===================================================================== *)
(** ** The positional arguments and the order of the checks              *)
(* ===================================================================== *)


Lemma takePositional_present (l : list string) :
  forall inFile outFile,
    empty inFile = false \/ empty outFile = false ->
    exists inFile' outFile',
      takePositional l inFile outFile = Some (inFile', outFile') /\
      (empty inFile = false -> inFile' = inFile) /\
      (empty outFile = false -> outFile' = outFile).
Proof.
  induction l as [|p l IH]; intros inFile outFile Hpresent.
  - exists inFile, outFile; cbn; auto.
  - cbn [takePositional].
    destruct (empty inFile) eqn:Hin, (empty outFile) eqn:Hout; cbn.
    + destruct Hpresent; discriminate.
    + destruct (IH p outFile (or_intror Hout)) as (i' & o' & Hr & _ & Ho).
      exists i', o'. repeat split; [exact Hr | discriminate | intros _; now apply Ho].
    + destruct (IH inFile p (or_introl Hin)) as (i' & o' & Hr & Hi & _).
      exists i', o'. repeat split; [exact Hr | intros _; now apply Hi | discriminate].
    + exists inFile, outFile; auto.
Qed.

Lemma takePositional_missing (n : nat) :
  forall l, (List.length l <= n)%nat ->
    takePositional l EmptyString EmptyString = None <->
    Nat.odd (List.length l) = true /\ allEmpty (removelast l).
Proof.
  induction n as [|n IH]; intros l Hlen.
  - destruct l; [|cbn in Hlen; lia].
    cbn; split; [discriminate | intros [Hodd _]; discriminate].
  - destruct l as [|a [|b rest]].
    + cbn; split; [discriminate | intros [Hodd _]; discriminate].
    + cbn; split; [intros _; split; [reflexivity | constructor] | reflexivity].
    + cbn [takePositional empty orb].
      change (Nat.odd (List.length (a :: b :: rest))) with (Nat.odd (List.length rest)).
      change (removelast (a :: b :: rest)) with (a :: removelast (b :: rest)).
      destruct (empty a) eqn:Ha, (empty b) eqn:Hb.
      * (* both empty: the loop goes on as it started *)
        destruct a; [|discriminate]. destruct b; [|discriminate].
        rewrite IH by (cbn in Hlen; lia).
        destruct rest as [|c rest].
        { cbn; split; intros [Hodd _]; discriminate. }
        change (removelast (EmptyString :: c :: rest))
          with (EmptyString :: removelast (c :: rest)).
        split; intros [Hodd Hall]; (split; [exact Hodd|]).
        -- repeat constructor. exact Hall.
        -- inversion Hall as [|? ? _ Hall']; subst.
           inversion Hall' as [|? ? _ Hall'']; subst. exact Hall''.
      * destruct (takePositional_present rest a b (or_intror Hb)) as (i' & o' & Hr & _).
        rewrite Hr. split; [discriminate|].
        intros [Hodd Hall].
        inversion Hall as [|? ? _ Hall']; subst.
        destruct rest as [|c rest].
        { discriminate Hodd. }
        change (removelast (b :: c :: rest)) with (b :: removelast (c :: rest)) in Hall'.
        inversion Hall'; congruence.
      * destruct (takePositional_present rest a b (or_introl Ha)) as (i' & o' & Hr & _).
        rewrite Hr. split; [discriminate|].
        intros [_ Hall]. inversion Hall; congruence.
      * destruct (takePositional_present rest a b (or_introl Ha)) as (i' & o' & Hr & _).
        rewrite Hr. split; [discriminate|].
        intros [_ Hall]. inversion Hall; congruence.
Qed.

(** X8. The loop over the positional arguments never replaces a file name
    that is already there, and it stays inside the vector whenever one of
    the two names is there: then it returns, the names that were present
    unchanged. *)
Theorem takePositional_keeps_names (positional : list string) (inFile outFile : string) :
  empty inFile = false \/ empty outFile = false ->
  exists inFile' outFile',
    takePositional positional inFile outFile = Some (inFile', outFile') /\
    (empty inFile = false -> inFile' = inFile) /\
    (empty outFile = false -> outFile' = outFile).
Proof. apply takePositional_present. Qed.

Lemma takePositional_keeps_names_witness :
  exists inFile' outFile',
    takePositional ["out"; "more"] "in.avi" EmptyString = Some (inFile', outFile') /\
    (empty "in.avi" = false -> inFile' = "in.avi") /\
    (empty EmptyString = false -> outFile' = EmptyString).
Proof.
  apply (takePositional_keeps_names ["out"; "more"] "in.avi" EmptyString).
  left; reflexivity.
Defined.

(** X9. The loop over the positional arguments reads past their end
    exactly when both file names are missing, the number of positional
    arguments is odd and all of them but the last are empty strings: a
    single positional argument with no file name given is the case that
    occurs. *)
Theorem takePositional_overrun (positional : list string) (inFile outFile : string) :
  takePositional positional inFile outFile = None <->
  empty inFile = true /\ empty outFile = true /\
  Nat.odd (List.length positional) = true /\ allEmpty (removelast positional).
Proof.
  destruct (empty inFile) eqn:Hin, (empty outFile) eqn:Hout.
  - destruct inFile; [|discriminate]. destruct outFile; [|discriminate].
    rewrite (takePositional_missing (List.length positional)) by lia.
    tauto.
  - destruct (takePositional_present positional inFile outFile (or_intror Hout))
      as (i' & o' & Hr & _).
    rewrite Hr. split; [discriminate | intros (_ & Hf & _); discriminate].
  - destruct (takePositional_present positional inFile outFile (or_introl Hin))
      as (i' & o' & Hr & _).
    rewrite Hr. split; [discriminate | intros (Hf & _); discriminate].
  - destruct (takePositional_present positional inFile outFile (or_introl Hin))
      as (i' & o' & Hr & _).
    rewrite Hr. split; [discriminate | intros (Hf & _); discriminate].
Qed.

Section AcceptanceFacts.

Context {H : Headers}.

Variable world : @World H.

Lemma accepts_intro (result : @ParseResult H) (inFile outFile : string) :
  r_help result = false ->
  inputFound world result = true ->
  noneRejected result = true ->
  formatCount (resolved result) = 1 ->
  lz10 (resolved result) && lz11 (resolved result) = false ->
  files result = Some (inFile, outFile) ->
  accepts world result
    {| m_inFile := inFile; m_outFile := outFile;
       options := resolved result; trace := [] |}.
Proof.
  unfold accepts, readArguments, files, namedFiles, readPositional, inputFound,
    noneRejected, formatCount.
  destruct result; cbn.
  intros -> Hfound Hrej Hcount Hlz Hfiles.
  unfold bind, modify_options, get, set_inFile, set_outFile, out, emit, ret,
    parse, throw, undefined.
  destruct r_outname0, r_infile0; cbn in *;
    try (destruct (fs_exists world _) as [[|]|]; try discriminate Hfound);
    cbn; rewrite Hfiles; cbn.
  all: destruct r_blackWhite0, r_paletted0, r_truecolor0; cbn in *;
    try discriminate; try lia.
  all: rewrite Hlz; cbn.
  all: destruct r_addColor1, r_moveColor1, r_shiftIndices0, r_pruneIndices0, r_sprites0;
    cbn in *; try discriminate; reflexivity.
Qed.

(** X10. [readArguments] returns [true] exactly when help is not asked
    for, the named input file exists (or none is named), [parse] refuses no
    value, exactly one format option is selected, lz10 and lz11 are not
    both selected, and the loop over the positional arguments stays inside
    them; it then has printed nothing, and leaves the file names that loop
    gives and every option as the command line has it. *)
Theorem readArguments_accepts_iff (result : @ParseResult H) (st : State) :
  accepts world result st <->
  r_help result = false /\
  inputFound world result = true /\
  noneRejected result = true /\
  formatsSelected result = 1 /\
  r_lz10 result && r_lz11 result = false /\
  files result = Some (m_inFile st, m_outFile st) /\
  options st = resolved result /\
  trace st = [].
Proof.
  split.
  - intros Hacc.
    destruct (accepts_inv world result st Hacc)
      as (Hhelp & Hfound & Hrej & Hcount & Hlz & Hfiles & Hopts & Htrace).
    rewrite formatCount_resolved in Hcount by now apply noneRejected_formatsParse.
    repeat split; assumption.
  - intros (Hhelp & Hfound & Hrej & Hcount & Hlz & Hfiles & Hopts & Htrace).
    destruct st as [inFile outFile opts events]; cbn in *; subst.
    apply accepts_intro; try assumption.
    now rewrite formatCount_resolved by now apply noneRejected_formatsParse.
Qed.

Lemma readArguments_help (result : @ParseResult H) :
  r_help result = true ->
  exists st, readArguments world result initial = (Value false, st) /\ trace st = [].
Proof.
  intros Hhelp. unfold readArguments, bind, modify_options.
  rewrite Hhelp. eexists; split; reflexivity.
Qed.

Lemma readArguments_missing (result : @ParseResult H) (file : string) :
  r_help result = false ->
  r_infile result = Some file ->
  fs_exists world file = Returns false ->
  exists st, readArguments world result initial = (Value false, st) /\
             trace st = [Out Cout (InputDoesNotExist file)].
Proof.
  intros Hhelp Hfile Hex. unfold readArguments, bind, modify_options.
  rewrite Hhelp, Hfile.
  destruct (r_outname result); cbn; rewrite Hex; cbn; eexists; split; reflexivity.
Qed.

Lemma readArguments_unreadable (result : @ParseResult H) (file what : string) :
  r_help result = false ->
  r_infile result = Some file ->
  fs_exists world file = Throws what ->
  exists st, readArguments world result initial = (Exception what, st) /\
             trace st = [].
Proof.
  intros Hhelp Hfile Hex. unfold readArguments, bind, modify_options.
  rewrite Hhelp, Hfile.
  destruct (r_outname result); cbn; rewrite Hex; cbn; eexists; split; reflexivity.
Qed.

(** X11. The first two checks of [readArguments] win over all later ones:
    when help is asked for, the run prints the usage text, nothing else,
    and exits with 2; otherwise, when [stdfs::exists] returns [false] for
    the named input file, it prints that the file does not exist and the
    usage text, both to the standard output, and exits with 2; and when
    [stdfs::exists] throws, it prints "Error: " with the message to the
    error stream and exits with 1.  None of this depends on the format and
    compression options or on values [parse] would refuse. *)
Theorem first_checks_win (argc : Z) (result : @ParseResult H) :
  3 <= argc ->
  (r_help result = true ->
     run world argc result = (Value 2, [Out Cout Usage])) /\
  (forall file,
     r_help result = false ->
     r_infile result = Some file ->
     fs_exists world file = Returns false ->
     run world argc result =
       (Value 2, [Out Cout (InputDoesNotExist file); Out Cout Usage])) /\
  (forall file what,
     r_help result = false ->
     r_infile result = Some file ->
     fs_exists world file = Throws what ->
     run world argc result =
       (Value 1, [Out Cerr (Line ("Error: " ++ what)%string)])).
Proof.
  intros Hargc; split; [|split].
  - intros Hhelp.
    destruct (readArguments_help result Hhelp) as (st & Hread & Htrace).
    rewrite (run_rejected world argc result st Hargc Hread), Htrace. reflexivity.
  - intros file Hhelp Hfile Hex.
    destruct (readArguments_missing result file Hhelp Hfile Hex) as (st & Hread & Htrace).
    rewrite (run_rejected world argc result st Hargc Hread), Htrace. reflexivity.
  - intros file what Hhelp Hfile Hex.
    destruct (readArguments_unreadable result file what Hhelp Hfile Hex)
      as (st & Hread & Htrace).
    rewrite (run_exception world argc result what st Hargc Hread), Htrace. reflexivity.
Qed.

End AcceptanceFacts.

Lemma first_checks_win_witness :
  run sampleWorld 4 missingInput =
    (Value 2, [Out Cout (InputDoesNotExist "missing.avi"); Out Cout Usage]) /\
  run lockedDirectory 4 lockedInput =
    (Value 1,
     [Out Cerr (Line "Error: filesystem error: cannot get file status: Permission denied")]).
Proof.
  split.
  - refine (proj1 (proj2 (first_checks_win sampleWorld 4 missingInput _))
              "missing.avi" _ _ _).
    + lia.
    + reflexivity.
    + reflexivity.
    + reflexivity.
  - refine (proj2 (proj2 (first_checks_win lockedDirectory 4 lockedInput _))
              "locked/in.avi"
              "filesystem error: cannot get file status: Permission denied" _ _ _).
    + lia.
    + reflexivity.
    + reflexivity.
    + reflexivity.
Defined.

(* ===================================================================== *)
(** ** How the runs of vid2h end                                          *)
(* ===================================================================== *)

Section EndingFacts.

Context {H : Headers}.

Variable world : @World H.

(** A run whose arguments are accepted and whose video opens: the frame
    loop decides how it goes on.  Either the frame count is not 0, or the
    video has no frame and line 324 is not reached. *)
Lemma run_opened argc result (st : @State H) videoInfo :
  3 <= argc ->
  accepts world result st ->
  empty (m_inFile st) = false ->
  empty (m_outFile st) = false ->
  video_open world (m_inFile st) = Returns videoInfo ->
  size_t (nrOfFrames H videoInfo) <> 0 \/ framesRead (video_frames world) = [] ->
  exists frameEvents,
    noFileEvent frameEvents /\
    (firstFailure world (buildPipeline (options st))
       (framesRead (video_frames world)) [] = None ->
     filter isProcessStream frameEvents
       = map ProcessStream (framesRead (video_frames world))) /\
    run world argc result =
      match firstFailure world (buildPipeline (options st))
              (framesRead (video_frames world)) [] with
      | Some what =>
          (Value 1,
           opening st videoInfo ++ frameEvents
           ++ [Out Cerr (Line ("Error: " ++ what)%string)])
      | None =>
          match framesRead (video_frames world) with
          | [] => (Undefined, opening st videoInfo ++ frameEvents)
          | _ :: _ =>
              (fst (ending world st),
               opening st videoInfo ++ frameEvents
               ++ [Out Cout InputSize; Out Cout CompressedSize; Out Cout BitRate]
               ++ snd (ending world st))
          end
      end.
Proof.
  intros Hargc Hacc Hin Hout Hopen Hcount.
  destruct (accepts_inv world result st Hacc) as (_ & _ & _ & _ & _ & _ & _ & Htrace).
  unfold accepts in Hacc.
  unfold run, main, try_catch.
  unfold bind at 1. unfold bind at 1.
  rewrite (proj2 (Z.ltb_ge argc 3) Hargc), Hacc.
  cbn [negb]. unfold bind at 1. cbn [get].
  rewrite Hin, Hout.
  unfold bind at 1. unfold openVideo.
  unfold bind at 1. cbn [out emit]. unfold bind at 1. cbn [emit].
  rewrite Hopen.
  unfold bind at 1. cbn [out emit ret]. cbn [m_inFile m_outFile options trace].
  unfold bind at 1. cbn [out emit ret]. cbn [m_inFile m_outFile options trace].
  unfold bind at 1.
  match goal with
  | |- context [readFrames world ?p ?i ?pend ?f ?im ?l ?s] =>
      destruct (readFrames_spec world p i pend f im l s) as [events [Hnf Hspec]];
      destruct (readFrames world p i pend f im l s) as [[images|what|] st'] eqn:Hread
  end.
  - destruct Hspec as (-> & Hall & Hfilter & Hlen & _).
    exists events; split; [exact Hnf|]. split; [intros _; exact Hfilter|].
    rewrite (proj2 (firstFailure_allProcessed world _ _ _) Hall).
    destruct images as [|image images].
    { destruct (framesRead (video_frames world)); [|discriminate].
      cbn. rewrite Htrace. unfold opening. cbn.
      repeat (rewrite <- app_assoc; cbn [app]). reflexivity. }
    destruct (framesRead (video_frames world)) as [|frame frames] eqn:Hframes;
      [discriminate|].
    unfold bind at 1. cbn [out emit withEvents m_inFile m_outFile options trace].
    unfold bind at 1. cbn [out emit withEvents m_inFile m_outFile options trace].
    unfold bind at 1. cbn [out emit withEvents m_inFile m_outFile options trace].
    unfold bind at 1. unfold writeOutput, ending, opening.
    rewrite Htrace.
    destruct (dryRun (options st)); cbn [negb].
    + cbn. repeat (rewrite <- app_assoc; cbn [app]). reflexivity.
    + destruct (ofstream_opens world (m_outFile st ++ ".bin")%string).
      * cbn. repeat (rewrite <- app_assoc; cbn [app]). reflexivity.
      * cbn. repeat (rewrite <- app_assoc; cbn [app]). reflexivity.
  - destruct Hspec as (-> & Hfail).
    exists events; split; [exact Hnf|].
    rewrite Hfail. split; [discriminate|].
    cbn. rewrite Htrace. unfold opening. cbn.
    repeat (rewrite <- app_assoc; cbn [app]). reflexivity.
  - destruct Hspec as (_ & Hzero & frame & rest & image & Hframes & _).
    destruct Hcount; congruence.
Qed.

(** A run whose arguments are accepted and whose video opens with the
    frame count 0 and a frame: the first frame is given to [processStream];
    when that throws the run ends as with every frame, when it returns line
    324 divides by 0. *)
Lemma run_stalled argc result (st : @State H) videoInfo frame rest :
  3 <= argc ->
  accepts world result st ->
  empty (m_inFile st) = false ->
  empty (m_outFile st) = false ->
  video_open world (m_inFile st) = Returns videoInfo ->
  size_t (nrOfFrames H videoInfo) = 0 ->
  framesRead (video_frames world) = frame :: rest ->
  run world argc result =
    match processStream world (buildPipeline (options st)) [] frame with
    | Returns _ =>
        (Undefined, opening st videoInfo ++ [ReadFrame; ProcessStream frame])
    | Throws what =>
        (Value 1,
         opening st videoInfo ++ [ReadFrame; ProcessStream frame]
         ++ [Out Cerr (Line ("Error: " ++ what)%string)])
    end.
Proof.
  intros Hargc Hacc Hin Hout Hopen Hzero Hframes.
  destruct (accepts_inv world result st Hacc) as (_ & _ & _ & _ & _ & _ & _ & Htrace).
  unfold accepts in Hacc.
  unfold run, main, try_catch.
  unfold bind at 1. unfold bind at 1.
  rewrite (proj2 (Z.ltb_ge argc 3) Hargc), Hacc.
  cbn [negb]. unfold bind at 1. cbn [get].
  rewrite Hin, Hout.
  unfold bind at 1. unfold openVideo.
  unfold bind at 1. cbn [out emit]. unfold bind at 1. cbn [emit].
  rewrite Hopen.
  unfold bind at 1. cbn [out emit ret]. cbn [m_inFile m_outFile options trace].
  unfold bind at 1. cbn [out emit ret]. cbn [m_inFile m_outFile options trace].
  unfold bind at 1.
  destruct (video_frames world) as [|first pending]; [discriminate|].
  cbn [framesRead] in Hframes.
  cbn [readFrames].
  destruct (frame_empty first); [discriminate|].
  inversion Hframes; subst first.
  unfold bind at 1. cbn [emit]. unfold bind at 1. cbn [emit].
  destruct (processStream world (buildPipeline (options st)) [] frame) as [image|what].
  - unfold newProgress. rewrite Hzero. cbn.
    rewrite Htrace. reflexivity.
  - cbn. rewrite Htrace. reflexivity.
Qed.

(** A run of an accepted command line that does not get to open the
    video. *)
Lemma run_accepted argc result (st : @State H) :
  3 <= argc ->
  accepts world result st ->
  (empty (m_inFile st) = true \/ empty (m_outFile st) = true \/
   returned (video_open world (m_inFile st)) = false) ->
  run world argc result =
    if empty (m_inFile st) then
      (Value 1, [Out Cerr (Line "No input file passed. Aborting.")])
    else if empty (m_outFile st) then
      (Value 1, [Out Cerr (Line "No output file passed. Aborting.")])
    else
      match video_open world (m_inFile st) with
      | Throws what =>
          (Value 1,
           [Out Cout (Line ("Opening " ++ m_inFile st ++ "...")%string);
            VideoOpen (m_inFile st);
            Out Cerr (Line ("Failed to open video file: " ++ what)%string)])
      | Returns _ => (Undefined, [])
      end.
Proof.
  intros Hargc Hacc Hstop.
  destruct (accepts_inv world result st Hacc) as (_ & _ & _ & _ & _ & _ & _ & Htrace).
  unfold accepts in Hacc.
  unfold run, main, try_catch.
  unfold bind at 1. unfold bind at 1.
  rewrite (proj2 (Z.ltb_ge argc 3) Hargc), Hacc.
  cbn [negb]. unfold bind at 1. cbn [get].
  destruct (empty (m_inFile st)).
  { cbn. rewrite Htrace. reflexivity. }
  destruct (empty (m_outFile st)).
  { cbn. rewrite Htrace. reflexivity. }
  unfold bind at 1. unfold openVideo.
  unfold bind at 1. cbn [out emit]. unfold bind at 1. cbn [emit].
  destruct (video_open world (m_inFile st)) as [videoInfo|what].
  { destruct Hstop as [Hs|[Hs|Hs]]; discriminate Hs. }
  cbn. rewrite Htrace. reflexivity.
Qed.

(** X12. An accepted command line that leaves the input file name or the
    output file name empty ends the run with exit code 1 after one line on
    the error stream, "No input file passed. Aborting." or, when only the
    output name is missing, "No output file passed. Aborting."; no video is
    opened. *)
Theorem missing_file_names argc (result : @ParseResult H) (st : State) :
  3 <= argc ->
  accepts world result st ->
  empty (m_inFile st) = true \/ empty (m_outFile st) = true ->
  run world argc result =
    (Value 1,
     [Out Cerr (Line (if empty (m_inFile st)
                      then "No input file passed. Aborting."
                      else "No output file passed. Aborting."))]).
Proof.
  intros Hargc Hacc Hempty.
  rewrite (run_accepted argc result st Hargc Hacc) by tauto.
  destruct (empty (m_inFile st)); [reflexivity|].
  destruct Hempty as [He|He]; [discriminate|]. now rewrite He.
Qed.

(** X13. When the video reader throws on opening the input file, the run
    prints "Opening ...", then "Failed to open video file: " with the
    reader's message on the error stream, and exits with 1: no frame is
    read and no output file is opened. *)
Theorem video_open_failure argc (result : @ParseResult H) (st : State) (what : string) :
  3 <= argc ->
  accepts world result st ->
  empty (m_inFile st) = false ->
  empty (m_outFile st) = false ->
  video_open world (m_inFile st) = Throws what ->
  run world argc result =
    (Value 1,
     [Out Cout (Line ("Opening " ++ m_inFile st ++ "...")%string);
      VideoOpen (m_inFile st);
      Out Cerr (Line ("Failed to open video file: " ++ what)%string)]).
Proof.
  intros Hargc Hacc Hin Hout Hopen.
  rewrite (run_accepted argc result st Hargc Hacc)
    by (right; right; now rewrite Hopen).
  now rewrite Hin, Hout, Hopen.
Qed.

(** X14. A video that opens and gives no frame (the first [readFrame]
    returns an empty frame) takes [main] to [images.front()] on an empty
    vector: the run has no defined outcome, and no output file was opened
    before. *)
Theorem no_frame_is_undefined argc (result : @ParseResult H) (st : State) videoInfo :
  3 <= argc ->
  accepts world result st ->
  empty (m_inFile st) = false ->
  empty (m_outFile st) = false ->
  video_open world (m_inFile st) = Returns videoInfo ->
  framesRead (video_frames world) = [] ->
  fst (run world argc result) = Undefined /\
  filter isFileEvent (snd (run world argc result)) = [].
Proof.
  intros Hargc Hacc Hin Hout Hopen Hnone.
  destruct (run_opened argc result st videoInfo Hargc Hacc Hin Hout Hopen
              (or_intror Hnone))
    as (frameEvents & Hnf & _ & Hrun).
  rewrite Hnone in Hrun. cbn [firstFailure] in Hrun. rewrite Hrun.
  split; [reflexivity|].
  cbn [snd]. rewrite filter_app, (filter_none _ _ Hnf). reflexivity.
Qed.


(** X16. In a run that is not dry, on a video whose frame count is not 0,
    the output file is [m_outFile] with ".bin" appended, opened once all
    frames are processed and the statistics are printed.  When it opens, the run prints "Writing output
    file", then "Done", and exits with 0; when it does not, the run prints
    "Failed to open ... for writing" on the error stream and exits with 1
    without "Done". *)
Theorem output_file_opening argc (result : @ParseResult H) (st : State) videoInfo :
  3 <= argc ->
  accepts world result st ->
  empty (m_inFile st) = false ->
  empty (m_outFile st) = false ->
  video_open world (m_inFile st) = Returns videoInfo ->
  size_t (nrOfFrames H videoInfo) <> 0 ->
  framesRead (video_frames world) <> [] ->
  allProcessed world (buildPipeline (options st))
    (framesRead (video_frames world)) [] = true ->
  r_dryRun result = false ->
  exists frameEvents,
    noFileEvent frameEvents /\
    run world argc result =
      (if ofstream_opens world (m_outFile st ++ ".bin")%string then Value 0 else Value 1,
       opening st videoInfo ++ frameEvents
       ++ [Out Cout InputSize; Out Cout CompressedSize; Out Cout BitRate]
       ++ (if ofstream_opens world (m_outFile st ++ ".bin")%string then
             [OfstreamOpen (m_outFile st ++ ".bin")%string true;
              Out Cout (Line ("Writing output file " ++ m_outFile st ++ ".bin")%string);
              Out Cout (Line "Done")]
           else
             [OfstreamOpen (m_outFile st ++ ".bin")%string false;
              Out Cerr (Line ("Failed to open " ++ (m_outFile st ++ ".bin")
                              ++ " for writing")%string)])).
Proof.
  intros Hargc Hacc Hin Hout Hopen Hcount Hframes Hall Hwet.
  destruct (run_opened argc result st videoInfo Hargc Hacc Hin Hout Hopen
              (or_introl Hcount))
    as (frameEvents & Hnf & _ & Hrun).
  rewrite (proj2 (firstFailure_allProcessed world _ _ _) Hall) in Hrun.
  destruct (framesRead (video_frames world)) as [|frame frames]; [congruence|].
  exists frameEvents. split; [exact Hnf|].
  rewrite Hrun.
  destruct (accepts_inv world result st Hacc) as (_ & _ & _ & _ & _ & _ & Hopts & _).
  unfold ending. rewrite Hopts. cbn [dryRun resolved]. rewrite Hwet.
  destruct (ofstream_opens world (m_outFile st ++ ".bin")%string); reflexivity.
Qed.

(** X26. A video that opens with the frame count 0 and still gives a frame
    takes [main] to the division of line 324 with the divisor 0: when
    [processStream] returns on the first frame, the run has no defined
    outcome after that call.  Up to there it has read one frame; no
    statistics were printed and no output file was opened. *)
Theorem zero_frame_count argc (result : @ParseResult H) (st : State)
  videoInfo frame rest image :
  3 <= argc ->
  accepts world result st ->
  empty (m_inFile st) = false ->
  empty (m_outFile st) = false ->
  video_open world (m_inFile st) = Returns videoInfo ->
  size_t (nrOfFrames H videoInfo) = 0 ->
  framesRead (video_frames world) = frame :: rest ->
  processStream world (buildPipeline (options st)) [] frame = Returns image ->
  run world argc result =
    (Undefined, opening st videoInfo ++ [ReadFrame; ProcessStream frame]).
Proof.
  intros Hargc Hacc Hin Hout Hopen Hzero Hframes Hfirst.
  rewrite (run_stalled argc result st videoInfo frame rest
             Hargc Hacc Hin Hout Hopen Hzero Hframes).
  now rewrite Hfirst.
Qed.

(** Every run, by how far it gets. *)
Lemma run_classified argc (result : @ParseResult H) :
  (exists events,
     run world argc result = (Value 2, events ++ [Out Cout Usage]) /\
     onlyPrints events /\
     (argc < 3 \/ exists st, readArguments world result initial = (Value false, st))) \/
  (3 <= argc /\
   exists what st,
     readArguments world result initial = (Exception what, st) /\
     run world argc result = (Value 1, [Out Cerr (Line ("Error: " ++ what)%string)])) \/
  (3 <= argc /\
   exists st,
     readArguments world result initial = (Undefined, st) /\
     run world argc result = (Undefined, [])) \/
  (3 <= argc /\
   exists st,
     accepts world result st /\
     exists events,
       run world argc result = (Undefined, events) \/
       run world argc result = (Value 0, events ++ [Out Cout (Line "Done")]) \/
       exists m, run world argc result = (Value 1, events ++ [Out Cerr m])).
Proof.
  destruct (Z.ltb_spec argc 3) as [Hargc|Hargc].
  { left. exists []. rewrite run_few_arguments by assumption.
    repeat split; [constructor | now left]. }
  destruct (readArguments world result initial) as [o st] eqn:Hread.
  destruct o as [[|]|what|].
  - right; right; right. split; [exact Hargc|]. exists st. split; [exact Hread|].
    destruct (empty (m_inFile st)) eqn:Hin.
    { exists []. right; right. eexists.
      rewrite (run_accepted argc result st Hargc Hread) by tauto.
      rewrite Hin. reflexivity. }
    destruct (empty (m_outFile st)) eqn:Hout.
    { exists []. right; right. eexists.
      rewrite (run_accepted argc result st Hargc Hread) by tauto.
      rewrite Hin, Hout. reflexivity. }
    destruct (video_open world (m_inFile st)) as [videoInfo|what] eqn:Hopen.
    2:{ eexists. right; right. eexists.
        rewrite (run_accepted argc result st Hargc Hread)
          by (right; right; now rewrite Hopen).
        rewrite Hin, Hout, Hopen.
        change (?a :: ?b :: [?c]) with ([a; b] ++ [c]). reflexivity. }
    destruct (framesRead (video_frames world)) as [|frame frames] eqn:Hframes.
    { destruct (run_opened argc result st videoInfo Hargc Hread Hin Hout Hopen
                  (or_intror Hframes))
        as (frameEvents & Hnf & _ & Hrun).
      rewrite Hframes in Hrun. cbn [firstFailure] in Hrun.
      eexists. left. exact Hrun. }
    destruct (Z.eq_dec (size_t (nrOfFrames H videoInfo)) 0) as [Hzero|Hcount].
    { pose proof (run_stalled argc result st videoInfo frame frames
                    Hargc Hread Hin Hout Hopen Hzero Hframes) as Hrun.
      destruct (processStream world (buildPipeline (options st)) [] frame).
      - eexists. left. exact Hrun.
      - eexists. right; right. eexists. rewrite Hrun.
        rewrite !app_assoc. reflexivity. }
    destruct (run_opened argc result st videoInfo Hargc Hread Hin Hout Hopen
                (or_introl Hcount))
      as (frameEvents & Hnf & _ & Hrun).
    rewrite Hframes in Hrun.
    destruct (firstFailure world (buildPipeline (options st))
                (frame :: frames) []) as [what|].
    { eexists. right; right. eexists. rewrite Hrun.
      rewrite app_assoc. reflexivity. }
    unfold ending in Hrun.
    destruct (dryRun (options st)).
    { eexists. right; left. rewrite Hrun. cbn [fst snd].
      rewrite !app_assoc. reflexivity. }
    destruct (ofstream_opens world (m_outFile st ++ ".bin")%string).
    + eexists. right; left. rewrite Hrun. cbn [fst snd].
      change (?a :: ?b :: [?c]) with ([a; b] ++ [c]).
      rewrite !app_assoc. reflexivity.
    + eexists. right; right. eexists. rewrite Hrun. cbn [fst snd].
      change (?a :: [?b]) with ([a] ++ [b]) at 2.
      rewrite !app_assoc. reflexivity.
  - left. exists (trace st).
    rewrite (run_rejected world argc result st Hargc Hread).
    split; [reflexivity|]. split; [|right; now exists st].
    destruct (readArguments_rejects world result st Hread)
      as [[_ ->]|[(file & _ & _ & ->)|[[_ ->]|[[_ ->]|(_ & _ & _ & ->)]]]];
      repeat constructor.
  - right; left. split; [exact Hargc|]. exists what, st. split; [reflexivity|].
    rewrite (run_exception world argc result what st Hargc Hread).
    destruct (readArguments_throws world result what st Hread) as (-> & _).
    reflexivity.
  - right; right; left. split; [exact Hargc|]. exists st. split; [reflexivity|].
    rewrite (run_undefined world argc result st Hargc Hread).
    destruct (readArguments_undefined world result st Hread) as [_ ->].
    reflexivity.
Qed.

(** X17. The exit code tells how a run ended: with code 0 the last line
    printed is "Done", with code 1 the last thing printed is a message on
    the error stream, with code 2 it is the usage text; no run exits with
    another code. *)
Theorem exit_code_tells_ending argc (result : @ParseResult H) code events :
  run world argc result = (Value code, events) ->
  endsAsCoded code events.
Proof.
  intros Hrun. unfold endsAsCoded.
  destruct (run_classified argc result)
    as [(ev & Hr & _)|[(_ & what & st & _ & Hr)|[(_ & st & _ & Hr)|
        (_ & st & _ & ev & [Hr|[Hr|(m & Hr)]])]]];
    rewrite Hr in Hrun; inversion Hrun; subst.
  - right; right. split; [reflexivity|]. now exists ev.
  - right; left. split; [reflexivity|]. now exists [], (Line ("Error: " ++ what)%string).
  - left. split; [reflexivity|]. now exists ev.
  - right; left. split; [reflexivity|]. now exists ev, m.
Qed.

(** X18. A run exits with code 2 exactly when the arguments are not
    looked at ([argc] below 3) or [readArguments] returns [false]; such a
    run does nothing but print: no video is opened, no frame is read, no
    file is touched. *)
Theorem exit_code_2 argc (result : @ParseResult H) :
  (fst (run world argc result) = Value 2 <->
     argc < 3 \/ exists st, readArguments world result initial = (Value false, st)) /\
  (fst (run world argc result) = Value 2 ->
     onlyPrints (snd (run world argc result))).
Proof.
  destruct (run_classified argc result)
    as [(ev & Hr & Hprints & Hwhy)|[(Hargc & what & st & Hread & Hr)|
        [(Hargc & st & Hread & Hr)|(Hargc & st & Hacc & ev & Hr)]]].
  - rewrite Hr. cbn [fst snd]. split; [tauto|].
    intros _. apply Forall_app; split; [exact Hprints | repeat constructor].
  - rewrite Hr. cbn [fst]. split; [|discriminate].
    split; [discriminate|].
    intros [Hfew|(st' & Hfalse)]; [lia | congruence].
  - rewrite Hr. cbn [fst]. split; [|discriminate].
    split; [discriminate|].
    intros [Hfew|(st' & Hfalse)]; [lia | congruence].
  - unfold accepts in Hacc.
    assert (Hcode : fst (run world argc result) <> Value 2).
    { destruct Hr as [Hr|[Hr|(m & Hr)]]; rewrite Hr; discriminate. }
    split; [|intros Hc; contradiction].
    split; [intros Hc; contradiction|].
    intros [Hfew|(st' & Hfalse)]; [lia | congruence].
Qed.

End EndingFacts.

(* ===================================================================== *)
(** ** More on the pipeline                                               *)
(* ===================================================================== *)

Section PipelineContents.

Context {H : Headers}.

(** Decides the options a count depends on. *)
Ltac decide_options :=
  repeat match goal with
    | |- context [if ?c then _ else _] => destruct c
    end.

(** X19. Which steps the pipeline holds: a step of each type occurs once
    when the options ask for it and not at all otherwise.  The input
    conversion is that of the first of blackWhite, paletted, truecolor that
    is set; ReorderColors and PadColorMap come with paletted, AddColor0,
    MoveColor0, ShiftIndices and PruneIndices with paletted and their own
    option (without paletted these options add nothing); every other step
    comes with its own option, and PadImageData always. *)
Theorem step_present_iff_chosen (o : @ProcessingOptions H) (t : StepType) :
  count (isType t) (buildPipeline o) = nat_of_bool (chosen o t).
Proof.
  rewrite buildPipeline_segments, !count_app, !count_optional.
  unfold inputSteps, paletteSteps, optional, nat_of_bool, chosen.
  destruct t;
    cbn [isType StepType_eqb StepType_eq_dec type andb];
    rewrite ?andb_false_r, ?andb_true_r;
    destruct (isSet (blackWhite o)), (isSet (paletted o)), (isSet (truecolor o));
    cbn [negb andb];
    decide_options; reflexivity.
Qed.

(** X20. The vram flag reaches the entropy-compression steps and no other
    step: a CompressRLE, CompressLz10 or CompressLz11 step has the flag as
    its one parameter, and no other step has a boolean parameter. *)
Theorem vram_reaches_entropy_steps (o : @ProcessingOptions H) :
  Forall (fun s =>
            if isEntropy s then parameters s = [PBool (vram o)]
            else forall b, ~ In (PBool b) (parameters s))
         (buildPipeline o).
Proof.
  rewrite buildPipeline_segments.
  repeat (apply Forall_app; split).
  - unfold inputSteps.
    destruct (isSet (blackWhite o)), (isSet (paletted o)), (isSet (truecolor o));
      repeat constructor; cbn; intros b Hb; intuition discriminate.
  - unfold paletteSteps, optional.
    destruct (isSet (paletted o)), (isSet (addColor0 o)), (isSet (moveColor0 o)),
      (isSet (shiftIndices o)), (isSet (pruneIndices o));
      repeat constructor; cbn; intros b Hb; intuition discriminate.
  - apply Forall_optional; cbn; intros b Hb; intuition discriminate.
  - apply Forall_optional; cbn; intros b Hb; intuition discriminate.
  - apply Forall_optional; cbn; intros b Hb; intuition discriminate.
  - apply Forall_optional; cbn; intros b Hb; intuition discriminate.
  - apply Forall_optional; cbn; intros b Hb; intuition discriminate.
  - apply Forall_optional; cbn; intros b Hb; intuition discriminate.
  - apply Forall_optional; reflexivity.
  - apply Forall_optional; reflexivity.
  - apply Forall_optional; reflexivity.
  - repeat constructor; cbn; intros b Hb; intuition discriminate.
Qed.

(** X21. The number of colours [main] computes for the output
    ([maxColorMapColors], line 339) is the size the pipeline pads the
    palette to: with paletted set the pipeline holds the PadColorMap step
    with that number as its parameter; without paletted the number is 0.
    It always fits 32 bits. *)
Theorem maxColorMapColors_is_padding (o : @ProcessingOptions H) :
  (isSet (paletted o) = true ->
     In {| type := PadColorMap; parameters := [PUInt32 (maxColorMapColors o)];
           compresses := false |}
        (buildPipeline o)) /\
  (isSet (paletted o) = false -> maxColorMapColors o = 0) /\
  0 <= maxColorMapColors o < 2 ^ 32.
Proof.
  split; [|split].
  - intros Hpal.
    rewrite buildPipeline_segments.
    apply in_or_app; right. apply in_or_app; left.
    unfold paletteSteps, maxColorMapColors. rewrite Hpal.
    apply in_or_app; right. apply in_or_app; right.
    apply in_or_app; right. apply in_or_app; right.
    destruct (isSet (pruneIndices o)); cbn; auto.
  - intros Hpal. unfold maxColorMapColors. now rewrite Hpal.
  - unfold maxColorMapColors, uint32.
    destruct (isSet (paletted o)), (isSet (pruneIndices o));
      apply Z.mod_pos_bound; lia.
Qed.

End PipelineContents.

(* ===================================================================== *)
(** ** More on the player                                                 *)
(* ===================================================================== *)

Section PlayerLoop.

Context {H : Gba.Headers}.

(** X22. The key loop of the player stops at the first poll that has A
    down: it makes as many polls as there are up to and including that
    one, A was up in all polls before, and the loop does not stop while A
    is up in every poll. *)
Theorem waitForA_first_press (polls : list Z) :
  (Gba.waitForA H polls = None <->
     Forall (fun keys => Gba.aDown H keys = false) polls) /\
  (forall polled,
     Gba.waitForA H polls = Some polled ->
     exists before keys later,
       polls = before ++ keys :: later /\
       polled = S (List.length before) /\
       Forall (fun keys => Gba.aDown H keys = false) before /\
       Gba.aDown H keys = true).
Proof.
  induction polls as [|keys polls [IHnone IHsome]].
  - split; [split; [constructor | reflexivity] | discriminate].
  - cbn [Gba.waitForA]. unfold Gba.aDown in *.
    destruct (Z.land keys (Gba.KEY_A H) =? 0) eqn:Hup.
    + destruct (Gba.waitForA H polls) as [k|]; cbn [option_map].
      * split.
        -- split; [discriminate|].
           intros Hall. inversion Hall as [|? ? _ Hrest]; subst.
           apply IHnone in Hrest. discriminate.
        -- intros polled Hp. inversion Hp; subst.
           destruct (IHsome k eq_refl) as (before & keys' & later & -> & -> & Hb & Hk).
           exists (keys :: before), keys', later.
           repeat split; [| exact Hk].
           constructor; [now rewrite Hup | exact Hb].
      * split; [|discriminate].
        split; [|reflexivity].
        intros _. constructor; [now rewrite Hup | now apply IHnone].
    + split.
      * split; [discriminate|].
        intros Hall. inversion Hall as [|? ? Hk _]; subst.
        rewrite Hup in Hk. discriminate.
      * intros polled Hp. inversion Hp; subst.
        exists [], keys, polls. repeat split; [constructor | now rewrite Hup].
Qed.

Lemma play_decode_order n videoInfo :
  forall (frame : Gba.Frame H),
    filter Gba.isDecode (Gba.play n videoInfo frame) =
      map (fun k => Gba.Decode Gba.sizeof_ScratchPad videoInfo
                      (Gba.frameAfter (S k) videoInfo frame))
          (seq 0 n).
Proof.
  induction n as [|n IH]; intros frame; [reflexivity|].
  cbn [Gba.play]. cbn [app filter Gba.isDecode].
  rewrite IH. cbn [seq map]. f_equal.
  rewrite <- seq_shift, map_map.
  apply map_ext. intros k. f_equal.
  clear. induction k as [|k IHk]; [reflexivity|].
  cbn [Gba.frameAfter] in *. now rewrite IHk.
Qed.

(** X23. The frames are decoded strictly in sequence: in a run that plays,
    the k-th call of [Video::decode] gets the frame [GetNextFrame] gives
    after k calls from the initial frame, each computed from the frame
    decoded before; there are as many calls as rounds, and none of them
    before the loop. *)
Theorem frames_decoded_in_sequence (polls : list Z) (n : nat) events :
  Gba.main H polls n = Gba.Playing events ->
  filter Gba.isDecode events =
    map (fun k => Gba.Decode Gba.sizeof_ScratchPad (Gba.GetInfo H (Gba.VIDEO_DATA H))
                    (Gba.frameAfter (S k) (Gba.GetInfo H (Gba.VIDEO_DATA H))
                       (Gba.frame0 H)))
        (seq 0 n).
Proof.
  unfold Gba.main.
  destruct (Gba.waitForA H polls) as [polled|]; [|discriminate].
  destruct (Gba.fps (Gba.GetInfo H (Gba.VIDEO_DATA H)) =? 0); [discriminate|].
  intros Hplay. apply (f_equal Gba.eventsOf) in Hplay.
  cbn [Gba.eventsOf] in Hplay. rewrite <- Hplay.
  rewrite !filter_app, filter_repeat_ScanKeys, play_decode_order.
  reflexivity.
Qed.

(** X24. For a frame rate from 1 to 65536 the value [main] writes to the
    reload register of timer 3, 65536 - 65536 / fps, is between 0 and
    65535: it fits the 16-bit register as it is, nothing is cut off by the
    store. *)
Theorem timer_reload_fits (polls : list Z) (n : nat) :
  Gba.waitForA H polls <> None ->
  1 <= Gba.fps (Gba.GetInfo H (Gba.VIDEO_DATA H)) <= 65536 ->
  0 <= 65536 - 65536 / Gba.fps (Gba.GetInfo H (Gba.VIDEO_DATA H)) < 65536 /\
  In (Gba.SetTimer3Reload (65536 - 65536 / Gba.fps (Gba.GetInfo H (Gba.VIDEO_DATA H))))
     (Gba.eventsOf (Gba.main H polls n)).
Proof.
  intros Hkey Hfps.
  set (rate := Gba.fps (Gba.GetInfo H (Gba.VIDEO_DATA H))) in *.
  assert (Hdiv : 1 <= 65536 / rate <= 65536).
  { split.
    - apply Z.div_le_lower_bound; lia.
    - apply Z.div_le_upper_bound; nia. }
  split; [lia|].
  unfold Gba.main. fold rate.
  destruct (Gba.waitForA H polls) as [polled|]; [|congruence].
  destruct (Z.eqb_spec rate 0) as [E|_]; [lia|].
  cbn [Gba.eventsOf].
  do 3 (apply in_or_app; right). apply in_or_app; left.
  rewrite Z.quot_div_nonneg by lia.
  unfold Gba.uint16. rewrite Z.mod_small by lia. now left.
Qed.

Lemma waitForA_never (polls : list Z) :
  Forall (fun keys => Gba.aDown H keys = false) polls ->
  Gba.waitForA H polls = None.
Proof.
  induction 1 as [|keys polls Hup _ IH]; [reflexivity|].
  cbn [Gba.waitForA]. unfold Gba.aDown in Hup.
  destruct (Z.land keys (Gba.KEY_A H) =? 0); [|discriminate].
  now rewrite IH.
Qed.

(** X25. While A is up in every poll the player stays in the key loop: it
    has made the start-up calls, shown the six lines of the header and
    scanned the keys once per poll, and nothing else; the display mode is
    not switched, no timer is set up and [Video::decode] is not called. *)
Theorem no_decode_before_start (polls : list Z) (n : nat) :
  Forall (fun keys => Gba.aDown H keys = false) polls ->
  Gba.main H polls n =
    Gba.WaitingForA
      ([Gba.SetWaitStates; Gba.IrqInit; Gba.TuiSetup; Gba.TuiFillBackground]
       ++ Gba.showInfo (Gba.GetInfo H (Gba.VIDEO_DATA H))
       ++ repeat Gba.ScanKeys (List.length polls)) /\
  filter Gba.isDecode (Gba.eventsOf (Gba.main H polls n)) = [].
Proof.
  intros Hup. unfold Gba.main.
  rewrite (waitForA_never polls Hup).
  split; [now rewrite <- app_assoc|].
  cbn [Gba.eventsOf].
  rewrite !filter_app, filter_repeat_ScanKeys. reflexivity.
Qed.

End PlayerLoop.

Lemma frames_decoded_in_sequence_witness :
  filter Gba.isDecode
    (Gba.eventsOf (Gba.main Gba.samplePlayer [0; 1] 3)) =
    [ Gba.Decode 38416 (Gba.VIDEO_DATA Gba.samplePlayer) (1 : Gba.Frame Gba.samplePlayer);
      Gba.Decode 38416 (Gba.VIDEO_DATA Gba.samplePlayer) (2 : Gba.Frame Gba.samplePlayer);
      Gba.Decode 38416 (Gba.VIDEO_DATA Gba.samplePlayer) (3 : Gba.Frame Gba.samplePlayer) ].
Proof.
  exact (frames_decoded_in_sequence (H := Gba.samplePlayer) [0; 1] 3 _ eq_refl).
Defined.

Lemma timer_reload_fits_witness :
  0 <= 65536 - 65536 / 15 < 65536 /\
  In (Gba.SetTimer3Reload 61167) (Gba.eventsOf (Gba.main Gba.samplePlayer [1] 0)).
Proof.
  apply (timer_reload_fits (H := Gba.samplePlayer) [1] 0).
  - cbn; discriminate.
  - cbn; lia.
Defined.

Lemma no_decode_before_start_witness :
  filter Gba.isDecode (Gba.eventsOf (Gba.main Gba.samplePlayer [0; 0] 5)) = [].
Proof.
  refine (proj2 (no_decode_before_start (H := Gba.samplePlayer) [0; 0] 5 _)).
  repeat constructor.
Defined.

(* ===================================================================== *)
(** ** The endings on the sample worlds                                   *)
(* ===================================================================== *)

Lemma missing_file_names_witness :
  run sampleWorld 4 noFileNames =
    (Value 1, [Out Cerr (Line "No input file passed. Aborting.")]).
Proof.
  apply (missing_file_names sampleWorld 4 noFileNames
           (Build_State (H := sampleHeaders) EmptyString EmptyString
              (resolved noFileNames) [])).
  - lia.
  - unfold accepts; vm_compute; reflexivity.
  - left; reflexivity.
Defined.

Lemma video_open_failure_witness :
  run brokenVideo 4 truecolorOnly =
    (Value 1,
     [Out Cout (Line "Opening in.avi..."); VideoOpen "in.avi";
      Out Cerr (Line "Failed to open video file: no video stream")]).
Proof.
  apply (video_open_failure brokenVideo 4 truecolorOnly (acceptedState truecolorOnly)
           "no video stream").
  - lia.
  - unfold accepts; vm_compute; reflexivity.
  - reflexivity.
  - reflexivity.
  - reflexivity.
Defined.

Lemma no_frame_is_undefined_witness :
  fst (run emptyVideo 4 truecolorOnly) = Undefined /\
  filter isFileEvent (snd (run emptyVideo 4 truecolorOnly)) = [].
Proof.
  apply (no_frame_is_undefined emptyVideo 4 truecolorOnly (acceptedState truecolorOnly) tt).
  - lia.
  - unfold accepts; vm_compute; reflexivity.
  - reflexivity.
  - reflexivity.
  - reflexivity.
  - reflexivity.
Defined.


Lemma output_file_opening_witness :
  exists frameEvents,
    noFileEvent frameEvents /\
    run readOnlyDisk 4 truecolorOnly =
      (Value 1,
       opening (acceptedState truecolorOnly) (tt : VideoInfo sampleHeaders)
       ++ frameEvents
       ++ [Out Cout InputSize; Out Cout CompressedSize; Out Cout BitRate]
       ++ [OfstreamOpen "out.bin" false;
           Out Cerr (Line "Failed to open out.bin for writing")]).
Proof.
  apply (output_file_opening readOnlyDisk 4 truecolorOnly
           (acceptedState truecolorOnly) tt).
  - lia.
  - unfold accepts; vm_compute; reflexivity.
  - reflexivity.
  - reflexivity.
  - reflexivity.
  - vm_compute; discriminate.
  - vm_compute; discriminate.
  - vm_compute; reflexivity.
  - reflexivity.
Defined.

Lemma exit_code_tells_ending_witness :
  endsAsCoded 1 (snd (run readOnlyDisk 4 truecolorOnly)).
Proof.
  apply (exit_code_tells_ending readOnlyDisk 4 truecolorOnly).
  vm_compute; reflexivity.
Defined.

Lemma zero_frame_count_witness :
  run uncountedVideo 4 (truecolorUncounted false) =
    (Undefined,
     [ Out Cout (Line "Opening in.avi..."); VideoOpen "in.avi";
       Out Cout (VideoStreamInfo (0 : VideoInfo countHeaders));
       Out Cout (ApplyingProcessing (buildPipeline (resolved (truecolorUncounted false))));
       ReadFrame; ProcessStream [x01; x02; x03] ]).
Proof.
  apply (zero_frame_count uncountedVideo 4 (truecolorUncounted false)
           (Build_State (H := countHeaders) "in.avi" "out"
              (resolved (truecolorUncounted false)) [])
           (0 : VideoInfo countHeaders) [x01; x02; x03] [[x04; x05; x06]]
           ([x01; x02; x03] : ImageData countHeaders)).
  - lia.
  - unfold accepts; vm_compute; reflexivity.
  - reflexivity.
  - reflexivity.
  - reflexivity.
  - reflexivity.
  - reflexivity.
  - reflexivity.
Defined.
